(** * Gazelle: the training and greedy-decoding notebook

    A shallow embedding of [Gazelle_cleaned.ipynb].  The notebook is a
    linear script: an environment guard, a dependency install, a dataset
    download, the [GazelleConfig] / [GazelleModel] definitions, a short
    training loop and the [generate] function.

    Everything numerical is delegated by the notebook to PyTorch and to a
    pretrained tokenizer.  Those collaborators are interfaces here
    ([TorchLib], [Tokenizer]); the notebook's own control flow (the cell
    order, the loops, the break conditions, the tensor plumbing between
    the library calls) is transcribed as written. *)

From Stdlib Require Import String Ascii List ZArith Lia Bool Arith.
Import ListNotations.

(** ** Python exceptions and fallible results *)

Inductive Exn : Type :=
| RuntimeError (msg : string)
| IndexError (msg : string)
| ValueError (msg : string)
| AssertionError (msg : string)
| ZeroDivisionError (msg : string)
| NameError (name : string)
| AttributeError (msg : string).

Inductive Result (A : Type) : Type :=
| Ok (a : A)
| Raise (e : Exn).

Arguments Ok {A} a.
Arguments Raise {A} e.

Definition is_ok {A} (r : Result A) : bool :=
  match r with Ok _ => true | Raise _ => false end.

(** ** State and exceptions

    A computation reads and writes a state and either returns a value or
    raises; the state reached when the exception is raised is kept, as
    the globals of a Python session are. *)

Definition M (S A : Type) : Type := S -> Result A * S.

Definition ret {S A} (a : A) : M S A := fun s => (Ok a, s).

Definition bind {S A B} (m : M S A) (f : A -> M S B) : M S B :=
  fun s =>
    match m s with
    | (Ok a, s') => f a s'
    | (Raise e, s') => (Raise e, s')
    end.

Definition raise {S A} (e : Exn) : M S A := fun s => (Raise e, s).

Definition lift {S A} (r : Result A) : M S A := fun s => (r, s).

Definition get {S} : M S S := fun s => (Ok s, s).

Definition modify {S} (f : S -> S) : M S unit := fun s => (Ok tt, f s).

Declare Scope monad_scope.
Delimit Scope monad_scope with monad.
Notation "x <- m ;; k" := (bind m (fun x => k))
  (at level 61, m at next level, right associativity) : monad_scope.
Notation "m ;; k" := (bind m (fun _ => k))
  (at level 61, right associativity) : monad_scope.
Open Scope monad_scope.

(** ** Integer tensors as nested lists

    A token id is an index into the vocabulary.  A [LongTensor] of shape
    (batch, length) is a list of rows. *)

Definition token := nat.
Definition Ids := list (list token).

(** [l[-1]] on a Python sequence: the last element, if there is one. *)
Fixpoint last_error {A} (l : list A) : option A :=
  match l with
  | [] => None
  | [x] => Some x
  | _ :: l' => last_error l'
  end.

(** Apply a fallible function to every element, stopping at the first
    exception. *)
Fixpoint traverse {A B} (f : A -> Result B) (l : list A) : Result (list B) :=
  match l with
  | [] => Ok []
  | x :: l' =>
      match f x with
      | Raise e => Raise e
      | Ok y =>
          match traverse f l' with
          | Raise e => Raise e
          | Ok ys => Ok (y :: ys)
          end
      end
  end.

(** [t[:, -1]]: for every batch row, the entry at the last position.
    Indexing a dimension of size 0 raises [IndexError]. *)
Definition select_last {A} (t : list (list A)) : Result (list A) :=
  traverse (fun row =>
              match last_error row with
              | Some x => Ok x
              | None =>
                  Raise (IndexError "index -1 is out of bounds for dimension 1 with size 0")
              end) t.

(** [torch.cat([ids, next_id], dim=-1)] on two tensors of shapes (B, L)
    and (B, 1): row-wise concatenation; the batch sizes must agree. *)
Definition cat_last (ids next_id : Ids) : Result Ids :=
  if Nat.eqb (length ids) (length next_id)
  then Ok (map (fun p => fst p ++ snd p) (combine ids next_id))
  else Raise (RuntimeError "Sizes of tensors must match except in dimension 1").

(** [next_id.item()]: the Python number held by a one-element tensor. *)
Definition item (t : Ids) : Result token :=
  match t with
  | [[x]] => Ok x
  | _ => Raise (RuntimeError "a Tensor with several or no elements cannot be converted to Scalar")
  end.

(** [input_ids.view(-1)] and [logits.view(-1, V)]: merge the batch and
    position dimensions, row-major. *)
Definition view_flat {A} (t : list (list A)) : list A := concat t.

(** What a [DataLoader] hands over as [batch['input_ids']].  The default
    collate function makes a tensor of shape (B, L) out of a batch of B
    tensors, and out of a batch of B plain lists of L numbers it makes a
    Python list of L tensors of shape (B,). *)
Inductive Collated : Type :=
| TensorBatch (t : Ids)
| ListBatch (columns : list (list token)).

(** The default collate function on a batch of one plain list: the
    batch is transposed, each number becoming a tensor of one element. *)
Definition collate_lists_of_one (row : list token) : Collated :=
  ListBatch (map (fun id => [id]) row).

(** [x.cuda()]: a method of tensors, which a Python list does not have. *)
Definition to_cuda (x : Collated) : Result Ids :=
  match x with
  | TensorBatch t => Ok t
  | ListBatch _ => Raise (AttributeError "'list' object has no attribute 'cuda'")
  end.

(** The number of tensors at the head of a list of batches: the batches
    [.cuda()] accepts before the first one it does not. *)
Fixpoint movable_prefix (batches : list Collated) : nat :=
  match batches with
  | TensorBatch _ :: rest => S (movable_prefix rest)
  | _ => 0
  end.

(** ** The model record

    [GazelleModel.__init__] stores four sub-modules.  The record is
    polymorphic in the types of their parameters, which belong to the
    library. *)

Record GazelleModel (E L N H : Type) : Type := mkGazelleModel {
  embedding : E;
  layers : list L;
  ln_f : N;
  head : H
}.

Arguments mkGazelleModel {E L N H} _ _ _ _.
Arguments embedding {E L N H} _.
Arguments layers {E L N H} _.
Arguments ln_f {E L N H} _.
Arguments head {E L N H} _.

(** ** The PyTorch interface

    What the notebook uses of [torch] and [torch.nn]: floating-point
    logits with their order, the four layer constructors, the forward
    functions of the layers, automatic differentiation and AdamW.

    The contracts are the shape rules of the layers and the fact that
    logits are compared by a strict weak order (floating-point values,
    NaN apart).  Dropout is the only source of randomness of a forward
    pass: a layer in training mode draws from the generator, a layer in
    evaluation mode does not, hence the two forward functions. *)

Class TorchLib : Type := {
  (* values *)
  Logit : Type;
  logit_ltb : Logit -> Logit -> bool;
  logit_ltb_irrefl : forall x, logit_ltb x x = false;
  logit_ltb_trans : forall x y z,
      logit_ltb x y = true -> logit_ltb y z = true -> logit_ltb x z = true;
  logit_ltb_cotrans : forall x y z,
      logit_ltb x y = true -> logit_ltb x z = true \/ logit_ltb z y = true;
  Loss : Type;
  (* the value of F.cross_entropy on rows of logits paired with targets *)
  ce_value : list (list Logit * token) -> Loss;
  (* the default random generator and torch.manual_seed *)
  Rng : Type;
  manual_seed : Z -> Rng;
  (* parameters of the layers and hidden activations *)
  EmbW : Type;
  LayerW : Type;
  NormW : Type;
  LinW : Type;
  Hidden : Type;
  (* per batch row, the number of positions of a hidden tensor *)
  hdims : Hidden -> list nat;
  out_features : LinW -> nat;
  (* constructors: nn.Embedding(num, dim), nn.TransformerEncoderLayer(d_model, nhead),
     nn.LayerNorm(dim), nn.Linear(in, out) *)
  Embedding_init : Z -> Z -> M Rng EmbW;
  TransformerEncoderLayer_init : Z -> Z -> M Rng LayerW;
  LayerNorm_init : Z -> M Rng NormW;
  Linear_init : Z -> Z -> M Rng LinW;
  (* multi-head attention splits d_model into nhead equal parts and
     refuses a pair where that is impossible *)
  encoder_layer_needs_divisibility : forall d_model nhead r,
      ~ (nhead | d_model)%Z ->
      is_ok (fst (TransformerEncoderLayer_init d_model nhead r)) = false;
  (* forward functions *)
  embedding_fwd : EmbW -> Ids -> Hidden;
  layer_eval : LayerW -> Hidden -> Hidden;
  layer_train : LayerW -> Rng -> Hidden -> Hidden * Rng;
  norm_fwd : NormW -> Hidden -> Hidden;
  linear_fwd : LinW -> Hidden -> list (list (list Logit));
  embedding_shape : forall w ids, hdims (embedding_fwd w ids) = map (@length token) ids;
  layer_eval_shape : forall w h, hdims (layer_eval w h) = hdims h;
  layer_train_shape : forall w r h, hdims (fst (layer_train w r h)) = hdims h;
  norm_shape : forall w h, hdims (norm_fwd w h) = hdims h;
  linear_shape : forall w h,
      map (@length (list Logit)) (linear_fwd w h) = hdims h /\
      Forall (Forall (fun row => length row = out_features w)) (linear_fwd w h);
  (* autograd and the optimizer *)
  Grads : Type;
  OptState : Type;
  (* the gradient, with respect to the parameters, of the cross-entropy of
     the forward pass on [input] (run in the given mode from the given
     generator state) against [target] *)
  autograd : GazelleModel EmbW LayerW NormW LinW -> bool -> Rng -> Ids -> list token -> Grads;
  grad_add : Grads -> Grads -> Grads;
  AdamW_init : GazelleModel EmbW LayerW NormW LinW -> OptState;
  AdamW_step : OptState -> GazelleModel EmbW LayerW NormW LinW -> option Grads ->
               OptState * GazelleModel EmbW LayerW NormW LinW
}.

(** ** The tokenizer interface

    [AutoTokenizer.from_pretrained(...)]: the ids of a text, as the
    plain call [tokenizer(text)] gives them; the ids of a text as the
    call with [truncation=True, padding='max_length', max_length=n]
    gives them; ids to text; the end-of-sequence id (Python's [None]
    when the vocabulary has none).

    Of the second call only this is taken from the library: for a
    positive [n], a text that has at least one id comes out with
    exactly [n] ids.  Nothing is assumed for a text without ids (which
    the library returns unpadded) or for [n <= 0] (where it cuts
    nothing). *)

Class Tokenizer : Type := {
  tokenize : string -> list token;
  tokenize_fixed : Z -> string -> list token;
  decode : list token -> string;
  eos_token_id : option token;
  tokenize_fixed_length : forall n text,
      (0 < n)%Z -> tokenize text <> [] ->
      length (tokenize_fixed n text) = Z.to_nat n
}.

(** ** [torch.argmax] over the last dimension *)

Section Argmax.
Context `{TorchLib}.

(** Scan with the best index and value so far; a later entry replaces
    the best one only when it is strictly greater, so among equal
    maxima the first index is returned. *)
Fixpoint argmax_from (best : nat) (bv : Logit) (j : nat) (row : list Logit) : nat :=
  match row with
  | [] => best
  | x :: row' =>
      if logit_ltb bv x
      then argmax_from j x (S j) row'
      else argmax_from best bv (S j) row'
  end.

Definition argmax (row : list Logit) : option nat :=
  match row with
  | [] => None
  | x :: row' => Some (argmax_from 0 x 1 row')
  end.

(** [torch.argmax(t, dim=-1, keepdim=True)] on a (B, V) tensor: a
    (B, 1) tensor of indices.  A reduction over an empty dimension
    raises. *)
Definition argmax_rows (t : list (list Logit)) : Result Ids :=
  traverse (fun row =>
              match argmax row with
              | Some i => Ok [i]
              | None =>
                  Raise (IndexError "argmax(): Expected reduction dim -1 to have non-zero size")
              end) t.

(** [i] is the greedy choice on [row]: an index of [row] whose entry no
    entry exceeds, and the first such index. *)
Definition is_argmax (row : list Logit) (i : nat) : Prop :=
  exists v,
    nth_error row i = Some v /\
    (forall j x, nth_error row j = Some x -> logit_ltb v x = false) /\
    (forall j x, j < i -> nth_error row j = Some x -> logit_ltb x v = true).

End Argmax.

(** ** Configuration *)

(** The [GazelleConfig] dataclass; the fields are Python integers and the
    class performs no validation of its own. *)
Record GazelleConfig : Type := mkGazelleConfig {
  n_layer : Z;
  n_embd : Z;
  n_head : Z;
  vocab_size : Z;
  ctx_len : Z
}.

Definition default_config : GazelleConfig :=
  {| n_layer := 12; n_embd := 1536; n_head := 24; vocab_size := 65536; ctx_len := 512 |}.

(** ** The session: model, optimizer and runtime *)

Section Notebook.
Context `{TL : TorchLib} `{TK : Tokenizer}.

Definition Params : Type := GazelleModel EmbW LayerW NormW LinW.
Definition LogitTensor : Type := list (list (list Logit)).

(** Lines written to the console. *)
Inductive Msg : Type :=
| MsgGPU (name : string)
| MsgText (s : string)
| MsgDatasetSize (n : nat)
| MsgStep (i : nat) (loss : Loss)
| MsgGenerated (text : string).

(** Process-wide state of the framework. *)
Record Runtime : Type := mkRuntime {
  rng : Rng;                 (* torch's default generator *)
  grad_enabled : bool;       (* torch.is_grad_enabled() *)
  stdout : list Msg          (* newest first *)
}.

(** The globals [model] and [optimizer].  [forwards] and [updates]
    record what has been executed: the inputs of the forward passes
    (newest first) and the number of [optimizer.step()] calls. *)
Record Model : Type := mkModel {
  weights : Params;
  training : bool;           (* model.training *)
  grads : option Grads;      (* the .grad fields; None when unset *)
  opt : OptState;
  forwards : list Ids;
  updates : nat
}.

Definition Session : Type := (Runtime * Model)%type.

Definition rt (s : Session) : Runtime := fst s.
Definition md (s : Session) : Model := snd s.

Definition set_rng (r : Rng) (s : Session) : Session :=
  (mkRuntime r (grad_enabled (rt s)) (stdout (rt s)), md s).
Definition set_grad_enabled (b : bool) (s : Session) : Session :=
  (mkRuntime (rng (rt s)) b (stdout (rt s)), md s).
Definition push_stdout (m : Msg) (s : Session) : Session :=
  (mkRuntime (rng (rt s)) (grad_enabled (rt s)) (m :: stdout (rt s)), md s).
Definition set_training (b : bool) (s : Session) : Session :=
  (rt s, mkModel (weights (md s)) b (grads (md s)) (opt (md s))
                 (forwards (md s)) (updates (md s))).
Definition set_grads (g : option Grads) (s : Session) : Session :=
  (rt s, mkModel (weights (md s)) (training (md s)) g (opt (md s))
                 (forwards (md s)) (updates (md s))).
Definition push_forward (x : Ids) (s : Session) : Session :=
  (rt s, mkModel (weights (md s)) (training (md s)) (grads (md s)) (opt (md s))
                 (x :: forwards (md s)) (updates (md s))).
Definition apply_update (o : OptState) (w : Params) (s : Session) : Session :=
  (rt s, mkModel w (training (md s)) (grads (md s)) o
                 (forwards (md s)) (S (updates (md s)))).

(** *** [GazelleModel.__init__] *)

(** The list comprehension over [range(config.n_layer)]: one
    constructor call per layer, the first exception ends it. *)
Fixpoint init_layers (n : nat) (d_model nhead : Z) : M Rng (list LayerW) :=
  match n with
  | 0 => ret []
  | S n' =>
      layer <- TransformerEncoderLayer_init d_model nhead ;;
      rest <- init_layers n' d_model nhead ;;
      ret (layer :: rest)
  end.

Definition GazelleModel_init (config : GazelleConfig) : M Rng Params :=
  emb <- Embedding_init (vocab_size config) (n_embd config) ;;
  ls <- init_layers (Z.to_nat (n_layer config)) (n_embd config) (n_head config) ;;
  ln <- LayerNorm_init (n_embd config) ;;
  hd <- Linear_init (n_embd config) (vocab_size config) ;;
  ret (mkGazelleModel emb ls ln hd).

(** *** [GazelleModel.forward] *)

Definition layer_call (train : bool) (w : LayerW) (r : Rng) (x : Hidden) : Hidden * Rng :=
  if train then layer_train w r x else (layer_eval w x, r).

(** [for layer in self.layers: x = layer(x)] *)
Fixpoint run_layers (train : bool) (ls : list LayerW) (r : Rng) (x : Hidden)
  : Hidden * Rng :=
  match ls with
  | [] => (x, r)
  | layer :: ls' =>
      let (x', r') := layer_call train layer r x in
      run_layers train ls' r' x'
  end.

Definition GazelleModel_forward (w : Params) (train : bool) (r : Rng) (x : Ids)
  : LogitTensor * Rng :=
  let x0 := embedding_fwd (embedding w) x in
  let (x1, r') := run_layers train (layers w) r x0 in
  let x2 := norm_fwd (ln_f w) x1 in
  (linear_fwd (head w) x2, r').

(** [model(x)] on the global model. *)
Definition model (x : Ids) : M Session LogitTensor :=
  fun s =>
    let (logits, r) :=
      GazelleModel_forward (weights (md s)) (training (md s)) (rng (rt s)) x in
    (Ok logits, push_forward x (set_rng r s)).

(** [model.eval()] *)
Definition model_eval : M Session unit := modify (set_training false).

(** [with torch.no_grad(): body]: gradient recording is switched off
    for the body and the previous mode is restored on the way out,
    exception or not. *)
Definition no_grad {A} (body : M Session A) : M Session A :=
  fun s =>
    let prev := grad_enabled (rt s) in
    let (r, s') := body (set_grad_enabled false s) in
    (r, set_grad_enabled prev s').

(** *** [generate] *)

(** [next_id.item() == tokenizer.eos_token_id]; a number never equals
    [None]. *)
Definition is_eos (t : token) : bool :=
  match eos_token_id with
  | Some e => Nat.eqb t e
  | None => false
  end.

(** The body of the loop up to the test: forward pass, logits of the
    last position, argmax, concatenation.  Returns the new [ids] and
    [next_id]. *)
Definition gen_step (ids : Ids) : M Session (Ids * Ids) :=
  logits <- model ids ;;
  last_logits <- lift (select_last logits) ;;
  next_id <- lift (argmax_rows last_logits) ;;
  ids' <- lift (cat_last ids next_id) ;;
  ret (ids', next_id).

(** [for _ in range(n): ...; if next_id.item() == eos: break] *)
Fixpoint gen_loop (n : nat) (ids : Ids) : M Session Ids :=
  match n with
  | 0 => ret ids
  | S n' =>
      p <- gen_step ids ;;
      t <- lift (item (snd p)) ;;
      if is_eos t then ret (fst p) else gen_loop n' (fst p)
  end.

(** [generate] up to the final [ids]. *)
Definition generate_ids (prompt : string) (max_new_tokens : nat) : M Session Ids :=
  model_eval ;;
  no_grad (gen_loop max_new_tokens [tokenize prompt]).

(** [ids[0]] *)
Definition first_row (ids : Ids) : Result (list token) :=
  match ids with
  | row :: _ => Ok row
  | [] => Raise (IndexError "index 0 is out of bounds for dimension 0 with size 0")
  end.

Definition generate (prompt : string) (max_new_tokens : nat) : M Session string :=
  ids <- generate_ids prompt max_new_tokens ;;
  row <- lift (first_row ids) ;;
  ret (decode row).

(** *** The training cell *)

(** [encode]: the tokenizer called with [truncation=True,
    padding='max_length', max_length=config.ctx_len]; the row
    [input_ids[0]] of its answer. *)
Definition encode (config : GazelleConfig) (text : string) : list token :=
  tokenize_fixed (ctx_len config) text.

(** [DataLoader(dataset.map(encode), batch_size=1)].  [dataset.map]
    stores what [encode] returns as a plain list of numbers and the
    notebook sets no tensor format on the dataset, so every batch
    reaches the loop as the default collate function leaves a batch of
    one list: a list of tensors, one per position. *)
Definition loader (config : GazelleConfig) (dataset : list string) : list Collated :=
  map (fun text => collate_lists_of_one (encode config text)) dataset.

(** [F.cross_entropy(input, target)] with [input] of shape (N, V) and
    [target] of shape (N): row [i] of [input] is scored against
    [target[i]]. *)
Definition cross_entropy (input : list (list Logit)) (target : list token) : Result Loss :=
  if Nat.eqb (length input) (length target)
  then Ok (ce_value (combine input target))
  else Raise (ValueError "Expected input batch_size to match target batch_size").

(** The pairs (logits row, target id) the loss of one batch is made of:
    [cross_entropy(logits.view(-1, V), input_ids.view(-1))]. *)
Definition loss_terms (logits : LogitTensor) (input_ids : Ids) : list (list Logit * token) :=
  combine (view_flat logits) (view_flat input_ids).

(** [loss.backward()]: adds the gradient to the [.grad] fields. *)
Definition loss_backward (g : Grads) : M Session unit :=
  fun s =>
    if grad_enabled (rt s)
    then (Ok tt,
          set_grads (Some (match grads (md s) with
                           | None => g
                           | Some g0 => grad_add g0 g
                           end)) s)
    else (Raise (RuntimeError "element 0 of tensors does not require grad"), s).

(** [optimizer.step()] *)
Definition optimizer_step : M Session unit :=
  fun s =>
    let (o, w) := AdamW_step (opt (md s)) (weights (md s)) (grads (md s)) in
    (Ok tt, apply_update o w s).

(** [optimizer.zero_grad()] *)
Definition optimizer_zero_grad : M Session unit := modify (set_grads None).

Definition print (m : Msg) : M Session unit := modify (push_stdout m).

(** The body of the training loop after the [break] test, from
    [batch['input_ids'].cuda()] on.  The gradient is that of the forward
    pass just run, hence of the session as it was before that pass. *)
Definition train_step (i : nat) (batch : Collated) : M Session unit :=
  input_ids <- lift (to_cuda batch) ;;
  s0 <- get ;;
  logits <- model input_ids ;;
  loss <- lift (cross_entropy (view_flat logits) (view_flat input_ids)) ;;
  loss_backward (autograd (weights (md s0)) (training (md s0)) (rng (rt s0))
                          input_ids (view_flat input_ids)) ;;
  optimizer_step ;;
  optimizer_zero_grad ;;
  if Nat.eqb (i mod 5) 0 then print (MsgStep i loss) else ret tt.

(** [for i, batch in enumerate(loader): if i > cap: break; ...];
    the notebook's [cap] is the literal 10. *)
Fixpoint train_loop (cap : nat) (i : nat) (batches : list Collated) : M Session unit :=
  match batches with
  | [] => ret tt
  | batch :: rest =>
      if Nat.ltb cap i
      then ret tt
      else (train_step i batch ;; train_loop cap (S i) rest)
  end.

Definition demo_cap : nat := 10.

(** ** The notebook, cell by cell *)

(** Calls that leave the process. *)
Inductive Event : Type :=
| EvShell (cmd : string)
| EvLoadDataset (name split : string)
| EvLoadTokenizer (name : string).

(** The machine the notebook runs on and the globals of the kernel.
    The first three fields are the environment: whether CUDA is there,
    the name of device 0 and what the dataset hub answers.  The globals
    [model] and [optimizer] are kept together in [globals], set once
    both exist. *)
Record World : Type := mkWorld {
  cuda_is_available : bool;
  device_name : string;
  hub_dataset : Result (list string);
  runtime : Runtime;
  numpy_seed : option Z;
  events : list Event;
  dataset : option (list string);
  globals : option Model
}.

Definition set_runtime (r : Runtime) (w : World) : World :=
  mkWorld (cuda_is_available w) (device_name w) (hub_dataset w) r
          (numpy_seed w) (events w) (dataset w) (globals w).
Definition set_numpy_seed (z : Z) (w : World) : World :=
  mkWorld (cuda_is_available w) (device_name w) (hub_dataset w) (runtime w)
          (Some z) (events w) (dataset w) (globals w).
Definition push_event (e : Event) (w : World) : World :=
  mkWorld (cuda_is_available w) (device_name w) (hub_dataset w) (runtime w)
          (numpy_seed w) (e :: events w) (dataset w) (globals w).
Definition set_dataset (d : list string) (w : World) : World :=
  mkWorld (cuda_is_available w) (device_name w) (hub_dataset w) (runtime w)
          (numpy_seed w) (events w) (Some d) (globals w).
Definition set_globals (m : Model) (w : World) : World :=
  mkWorld (cuda_is_available w) (device_name w) (hub_dataset w) (runtime w)
          (numpy_seed w) (events w) (dataset w) (Some m).

Definition world_print (m : Msg) : M World unit :=
  modify (fun w => set_runtime (mkRuntime (rng (runtime w)) (grad_enabled (runtime w))
                                          (m :: stdout (runtime w))) w).

(** [torch.manual_seed(z)] *)
Definition torch_manual_seed (z : Z) : M World unit :=
  modify (fun w => set_runtime (mkRuntime (manual_seed z) (grad_enabled (runtime w))
                                          (stdout (runtime w))) w).

(** [np.random.seed(z)] *)
Definition np_random_seed (z : Z) : M World unit := modify (set_numpy_seed z).

(** A constructor call, drawing from the default generator. *)
Definition with_rng {A} (c : M Rng A) : M World A :=
  fun w =>
    let (r, g) := c (rng (runtime w)) in
    (r, set_runtime (mkRuntime g (grad_enabled (runtime w)) (stdout (runtime w))) w).

(** A computation on the globals [model] and [optimizer]. *)
Definition with_model {A} (m : Model) (c : M Session A) : M World A :=
  fun w =>
    let (r, s) := c (runtime w, m) in
    (r, set_globals (md s) (set_runtime (rt s) w)).

(** Cell 1, the environment guard. *)
Definition guard_cell : M World unit :=
  w <- get ;;
  if cuda_is_available w
  then
    world_print (MsgGPU (device_name w)) ;;
    torch_manual_seed 42 ;;
    np_random_seed 42
  else raise (RuntimeError "GPU required").

(** Cell 2, [!pip install -q transformers datasets einops]. *)
Definition install_cell : M World unit :=
  modify (push_event (EvShell "pip install -q transformers datasets einops")).

(** Cell 3, the dataset download. *)
Definition dataset_cell : M World unit :=
  world_print (MsgText "Loading Dolphin Distill dataset…") ;;
  modify (push_event (EvLoadDataset "cognitivecomputations/dolphin-distill" "train")) ;;
  w <- get ;;
  d <- lift (hub_dataset w) ;;
  modify (set_dataset d) ;;
  world_print (MsgDatasetSize (length d)).

(** Cell 4 only defines [GazelleConfig] and [GazelleModel]. *)
Definition model_def_cell : M World unit := ret tt.

(** Cell 5: model construction, tokenizer, encoding of the dataset,
    optimizer, training loop. *)
Definition training_cell : M World unit :=
  let config := default_config in
  params <- with_rng (GazelleModel_init config) ;;
  modify (push_event (EvLoadTokenizer "BlinkDL/rwkv-4-world")) ;;
  w <- get ;;
  match dataset w with
  | None => raise (NameError "dataset")
  | Some d =>
      let batches := loader config d in
      let optimizer := AdamW_init params in
      with_model (mkModel params true None optimizer [] 0)
                 (train_loop demo_cap 0 batches)
  end.

(** Cell 6: [print(generate('Hello world'))], with the default
    [max_new_tokens=50]. *)
Definition generate_cell : M World unit :=
  w <- get ;;
  match globals w with
  | None => raise (NameError "model")
  | Some m =>
      text <- with_model m (generate "Hello world" 50) ;;
      world_print (MsgGenerated text)
  end.

(** Cells run in order; an exception in a cell stops the run. *)
Fixpoint run_cells (cells : list (M World unit)) : M World unit :=
  match cells with
  | [] => ret tt
  | c :: rest => c ;; run_cells rest
  end.

Definition later_cells : list (M World unit) :=
  [install_cell; dataset_cell; model_def_cell; training_cell; generate_cell].

Definition notebook : list (M World unit) := guard_cell :: later_cells.

End Notebook.

(** ** What greedy decoding emits

    The ids produced by successive steps of [generate]'s loop body when
    no stop test intervenes, as a function of the weights alone (the
    model in evaluation mode).  They give "the id emitted at step k" a
    meaning that does not depend on where the loop stops. *)

Section Emitted.
Context `{TL : TorchLib} `{TK : Tokenizer}.

(** The forward pass in evaluation mode: no layer draws from the
    generator. *)
Definition eval_logits (w : Params) (x : Ids) : LogitTensor :=
  linear_fwd (head w)
    (norm_fwd (ln_f w)
       (fold_left (fun h layer => layer_eval layer h) (layers w)
          (embedding_fwd (embedding w) x))).

(** What one loop body makes of the logits of [ids]: the logits of the
    last position, their argmax, the concatenation. *)
Definition pick_next (logits : LogitTensor) (ids : Ids) : Result (Ids * Ids) :=
  match select_last logits with
  | Raise e => Raise e
  | Ok last_logits =>
      match argmax_rows last_logits with
      | Raise e => Raise e
      | Ok next_id =>
          match cat_last ids next_id with
          | Raise e => Raise e
          | Ok ids' => Ok (ids', next_id)
          end
      end
  end.

(** One loop body on [ids], in evaluation mode. *)
Definition greedy_next (w : Params) (ids : Ids) : Result (Ids * Ids) :=
  pick_next (eval_logits w ids) ids.

(** The ids emitted by [n] consecutive steps from [ids]. *)
Fixpoint greedy_tokens (w : Params) (n : nat) (ids : Ids) : Result (list token) :=
  match n with
  | 0 => Ok []
  | S n' =>
      match greedy_next w ids with
      | Raise e => Raise e
      | Ok (ids', next_id) =>
          match item next_id with
          | Raise e => Raise e
          | Ok t =>
              match greedy_tokens w n' ids' with
              | Raise e => Raise e
              | Ok ts => Ok (t :: ts)
              end
          end
      end
  end.

(** No id of [ts] is the end-of-sequence id. *)
Definition no_eos (ts : list token) : bool := forallb (fun t => negb (is_eos t)) ts.

(** What a run of [generate] leaves alone in the session: everything
    but the generator, the record of forward passes and the console. *)
Definition same_model_state (s s' : Session) : Prop :=
  weights (md s') = weights (md s) /\
  grads (md s') = grads (md s) /\
  opt (md s') = opt (md s) /\
  updates (md s') = updates (md s) /\
  training (md s') = training (md s) /\
  grad_enabled (rt s') = grad_enabled (rt s).

(** The inputs of the first [m] forward passes of a loop that starts
    from [row] and generates [gen]: [row] followed by the first 0, 1,
    ..., [m - 1] generated ids. *)
Definition fed_inputs (row gen : list token) (m : nat) : list Ids :=
  map (fun i => [row ++ firstn i gen]) (seq 0 m).

End Emitted.

(** ** A small instance of the interfaces

    A library with integer logits and a two-layer model whose greedy
    choice after id [t] is [(t + 1) mod V] in evaluation mode; in
    training mode each layer shifts its input by the state of the
    generator, as dropout makes the output depend on it.  The tokenizer
    maps a character to its code.  The statements below are evaluated on
    this instance. *)

Module Toy.

Definition scores (v : nat) (t : token) : list Z :=
  map (fun j => if Nat.eqb j (S t mod v) then 1%Z else 0%Z) (seq 0 v).

Definition encoder_layer_init (d_model nhead : Z) : M nat unit :=
  fun r =>
    if Z.eqb nhead 0
    then (Raise (ZeroDivisionError "integer division or modulo by zero"), r)
    else if Z.eqb ((d_model / nhead) * nhead) d_model
         then (Ok tt, S r)
         else (Raise (AssertionError "embed_dim must be divisible by num_heads"), r).

#[refine] Instance torch : TorchLib := {|
  Logit := Z;
  logit_ltb := Z.ltb;
  Loss := nat;
  ce_value := fun terms => length terms;
  Rng := nat;
  manual_seed := Z.to_nat;
  EmbW := nat;
  LayerW := unit;
  NormW := unit;
  LinW := nat;
  Hidden := list (list token);
  hdims := map (@length token);
  out_features := fun v => v;
  Embedding_init := fun num _ r => (Ok (Z.to_nat num), S r);
  TransformerEncoderLayer_init := encoder_layer_init;
  LayerNorm_init := fun _ r => (Ok tt, r);
  Linear_init := fun _ out r => (Ok (Z.to_nat out), S r);
  embedding_fwd := fun _ ids => ids;
  layer_eval := fun _ h => h;
  layer_train := fun _ r h => (map (map (Nat.add r)) h, S r);
  norm_fwd := fun _ h => h;
  linear_fwd := fun v h => map (map (scores v)) h;
  Grads := nat;
  OptState := nat;
  autograd := fun _ _ _ _ target => length target;
  grad_add := Nat.add;
  AdamW_init := fun _ => 0;
  AdamW_step := fun o w _ => (S o, w)
|}.
Proof.
  - intro x. apply Z.ltb_irrefl.
  - intros x y z Hxy Hyz. apply Z.ltb_lt in Hxy, Hyz. apply Z.ltb_lt. lia.
  - intros x y z Hxy. apply Z.ltb_lt in Hxy.
    destruct (Z.ltb_spec x z) as [Hxz | Hzx]; [left; reflexivity |].
    right. apply Z.ltb_lt. lia.
  - intros d_model nhead r Hnd. unfold encoder_layer_init.
    destruct (Z.eqb_spec nhead 0) as [Hz | Hnz]; [reflexivity |].
    destruct (Z.eqb_spec ((d_model / nhead) * nhead) d_model) as [Hdiv | Hndiv];
      [| reflexivity].
    exfalso. apply Hnd. exists (d_model / nhead)%Z. symmetry. exact Hdiv.
  - reflexivity.
  - reflexivity.
  - intros w r h. simpl. rewrite map_map. apply map_ext. intro row. apply length_map.
  - reflexivity.
  - intros v h. split.
    + rewrite map_map. apply map_ext. intro row. apply length_map.
    + apply Forall_forall. intros rows Hrows.
      apply in_map_iff in Hrows. destruct Hrows as [src [<- _]].
      apply Forall_forall. intros row Hrow.
      apply in_map_iff in Hrow. destruct Hrow as [t [<- _]].
      unfold scores. rewrite length_map. apply length_seq.
Defined.

Definition chars (s : string) : list token := map nat_of_ascii (list_ascii_of_string s).
Definition text (ids : list token) : string := string_of_list_ascii (map ascii_of_nat ids).

(** The call with a fixed length: a text without ids stays as it is,
    and so does any text when the length is not positive; otherwise the
    ids are cut to [n] and filled up with id 0. *)
Definition chars_fixed (n : Z) (s : string) : list token :=
  match chars s with
  | [] => []
  | ids =>
      if (0 <? n)%Z
      then firstn (Z.to_nat n) ids ++ repeat 0 (Z.to_nat n - length ids)
      else ids
  end.

Lemma chars_fixed_length (n : Z) (s : string) :
  (0 < n)%Z -> chars s <> [] -> length (chars_fixed n s) = Z.to_nat n.
Proof.
  intros Hn Hne. unfold chars_fixed.
  destruct (chars s) as [| c ids] eqn:Hids; [congruence |].
  destruct (Z.ltb_spec 0 n) as [_ | Hbad]; [| lia].
  rewrite length_app, repeat_length, length_firstn. lia.
Qed.

(** A tokenizer whose end-of-sequence id is 3. *)
Instance tokenizer : Tokenizer := {|
  tokenize := chars;
  tokenize_fixed := chars_fixed;
  decode := text;
  eos_token_id := Some 3;
  tokenize_fixed_length := chars_fixed_length
|}.

(** The same tokenizer without an end-of-sequence id. *)
Definition tokenizer_no_eos : Tokenizer := {|
  tokenize := chars;
  tokenize_fixed := chars_fixed;
  decode := text;
  eos_token_id := None;
  tokenize_fixed_length := chars_fixed_length
|}.

(** A model over a vocabulary of four ids. *)
Definition params : Params := mkGazelleModel 4 [tt; tt] tt 4.

Definition session : Session :=
  (mkRuntime 0 true [], mkModel params true None 0 [] 0).

Definition world (cuda : bool) : World :=
  mkWorld cuda "Toy GPU" (Ok ["ab"; "c"; "def"]%string)
          (mkRuntime 7 true []) None [] None None.

(** A second session with the weights of [session] and everything else
    different. *)
Definition other_session : Session :=
  (mkRuntime 9 false [MsgText "earlier output"],
   mkModel params false (Some 1) 5 [[[1; 2]]] 2).

(** Four batches, the third a list of tensors. *)
Definition mixed_batches : list Collated :=
  [TensorBatch [[1; 2]]; TensorBatch [[3]]; ListBatch [[0]; [1]]; TensorBatch [[2; 2]]].

(** A configuration with a context of three ids. *)
Definition small_config : GazelleConfig :=
  {| n_layer := 1; n_embd := 4; n_head := 2; vocab_size := 4; ctx_len := 3 |}.

End Toy.

(** * Properties *)

(** ** Lists and tensors *)

Lemma last_error_some {A} (l : list A) :
  l <> [] -> exists x, last_error l = Some x.
Proof.
  induction l as [| a l IH]; intro Hne; [congruence |].
  destruct l as [| b l'].
  - exists a. reflexivity.
  - destruct IH as [x Hx]; [discriminate |].
    exists x. exact Hx.
Qed.

Lemma last_error_none {A} (l : list A) : last_error l = None -> l = [].
Proof.
  induction l as [| a l IH]; [reflexivity |].
  destruct l as [| b l']; [discriminate |].
  intro Hl. specialize (IH Hl). discriminate.
Qed.

Lemma last_error_In {A} (l : list A) (x : A) : last_error l = Some x -> In x l.
Proof.
  induction l as [| a l IH]; [discriminate |].
  destruct l as [| b l'].
  - simpl. intro Hx. injection Hx as <-. left. reflexivity.
  - intro Hx. right. apply IH. exact Hx.
Qed.

Lemma length_concat_shape {A B} (xs : list (list A)) (ys : list (list B)) :
  map (@length A) xs = map (@length B) ys ->
  length (concat xs) = length (concat ys).
Proof.
  revert ys. induction xs as [| x xs IH]; intros [| y ys] Hshape;
    try discriminate; [reflexivity |].
  simpl in Hshape. injection Hshape as Hhd Htl.
  simpl. rewrite !length_app, Hhd, (IH ys Htl). reflexivity.
Qed.

(** ** The greedy choice *)

Section ArgmaxFacts.
Context `{TL : TorchLib}.

(** The scan keeps, over the prefix already read, the first index of a
    greatest entry. *)
Lemma argmax_from_scan (row pre : list Logit) (best : nat) (bv : Logit) :
  nth_error pre best = Some bv ->
  (forall j x, nth_error pre j = Some x -> logit_ltb bv x = false) ->
  (forall j x, j < best -> nth_error pre j = Some x -> logit_ltb x bv = true) ->
  is_argmax (pre ++ row) (argmax_from best bv (length pre) row).
Proof.
  revert pre best bv.
  induction row as [| x row IH]; intros pre best bv Hbest Hmax Hfirst.
  - simpl. rewrite app_nil_r. exists bv. auto.
  - simpl. replace (pre ++ x :: row) with ((pre ++ [x]) ++ row)
      by (rewrite <- app_assoc; reflexivity).
    replace (S (length pre)) with (length (pre ++ [x]))
      by (rewrite length_app; simpl; lia).
    assert (Hlt : best < length pre)
      by (apply nth_error_Some; rewrite Hbest; discriminate).
    destruct (logit_ltb bv x) eqn:Hcmp.
    + apply IH.
      * rewrite nth_error_app2, Nat.sub_diag by lia. reflexivity.
      * intros j y Hy.
        destruct (Nat.lt_ge_cases j (length pre)) as [Hj | Hj].
        -- rewrite nth_error_app1 in Hy by exact Hj.
           destruct (logit_ltb x y) eqn:Hxy; [| reflexivity].
           rewrite <- (Hmax j y Hy). symmetry.
           exact (logit_ltb_trans _ _ _ Hcmp Hxy).
        -- rewrite nth_error_app2 in Hy by exact Hj.
           destruct (j - length pre) as [| k]; simpl in Hy.
           ++ injection Hy as <-. apply logit_ltb_irrefl.
           ++ destruct k; discriminate.
      * intros j y Hj Hy.
        rewrite nth_error_app1 in Hy by exact Hj.
        destruct (logit_ltb_cotrans _ _ y Hcmp) as [Hbad | Hgood]; [| exact Hgood].
        rewrite (Hmax j y Hy) in Hbad. discriminate.
    + apply IH.
      * rewrite nth_error_app1 by exact Hlt. exact Hbest.
      * intros j y Hy.
        destruct (Nat.lt_ge_cases j (length pre)) as [Hj | Hj].
        -- rewrite nth_error_app1 in Hy by exact Hj. exact (Hmax j y Hy).
        -- rewrite nth_error_app2 in Hy by exact Hj.
           destruct (j - length pre) as [| k]; simpl in Hy.
           ++ injection Hy as <-. exact Hcmp.
           ++ destruct k; discriminate.
      * intros j y Hj Hy.
        rewrite nth_error_app1 in Hy by lia.
        exact (Hfirst j y Hj Hy).
Qed.

Lemma argmax_is_argmax (row : list Logit) (i : nat) :
  argmax row = Some i -> is_argmax row i.
Proof.
  destruct row as [| x row]; [discriminate |].
  simpl. intro Hi. injection Hi as <-.
  apply (@argmax_from_scan row [x] 0 x).
  - reflexivity.
  - intros [| j] y Hy; simpl in Hy.
    + injection Hy as <-. apply logit_ltb_irrefl.
    + destruct j; discriminate.
  - intros j y Hj. lia.
Qed.

Lemma argmax_some (row : list Logit) :
  row <> [] -> exists i, argmax row = Some i.
Proof.
  destruct row as [| x row]; [congruence |].
  intros _. eexists. reflexivity.
Qed.

(** The greedy choice is unique: it is a function of the row. *)
Lemma is_argmax_unique (row : list Logit) (i j : nat) :
  is_argmax row i -> is_argmax row j -> i = j.
Proof.
  intros (vi & Hvi & Hmaxi & Hfirsti) (vj & Hvj & Hmaxj & Hfirstj).
  destruct (Nat.lt_trichotomy i j) as [Hlt | [Heq | Hgt]]; [| exact Heq |].
  - specialize (Hfirstj i vi Hlt Hvi). rewrite (Hmaxi j vj Hvj) in Hfirstj. discriminate.
  - specialize (Hfirsti j vj Hgt Hvj). rewrite (Hmaxj i vi Hvi) in Hfirsti. discriminate.
Qed.

Lemma is_argmax_in_range (row : list Logit) (i : nat) :
  is_argmax row i -> i < length row.
Proof.
  intros (v & Hv & _). apply nth_error_Some. rewrite Hv. discriminate.
Qed.

End ArgmaxFacts.

(** ** The forward pass *)

Section ForwardFacts.
Context `{TL : TorchLib}.

Lemma run_layers_shape (train : bool) (ls : list LayerW) (r : Rng) (x : Hidden) :
  hdims (fst (run_layers train ls r x)) = hdims x.
Proof.
  revert r x. induction ls as [| layer ls IH]; intros r x; [reflexivity |].
  simpl. unfold layer_call. destruct train.
  - pose proof (layer_train_shape layer r x) as Hshape.
    destruct (layer_train layer r x) as [x' r']. simpl in Hshape.
    rewrite IH. exact Hshape.
  - rewrite IH. apply layer_eval_shape.
Qed.

(** In evaluation mode the layers leave the generator alone. *)
Lemma run_layers_eval (ls : list LayerW) (r : Rng) (x : Hidden) :
  run_layers false ls r x = (fold_left (fun h layer => layer_eval layer h) ls x, r).
Proof.
  revert x. induction ls as [| layer ls IH]; intro x; [reflexivity |].
  simpl. apply IH.
Qed.

Lemma forward_eval (w : Params) (r : Rng) (x : Ids) :
  GazelleModel_forward w false r x = (eval_logits w x, r).
Proof.
  unfold GazelleModel_forward, eval_logits. rewrite run_layers_eval. reflexivity.
Qed.

(** Logits have one row of [out_features] entries per position of the
    input. *)
Lemma forward_shape (w : Params) (train : bool) (r : Rng) (x : Ids) :
  map (@length (list Logit)) (fst (GazelleModel_forward w train r x)) = map (@length token) x /\
  Forall (Forall (fun row => length row = out_features (head w)))
         (fst (GazelleModel_forward w train r x)).
Proof.
  unfold GazelleModel_forward.
  pose proof (run_layers_shape train (layers w) r (embedding_fwd (embedding w) x)) as Hls.
  destruct (run_layers train (layers w) r (embedding_fwd (embedding w) x)) as [x1 r'].
  simpl in Hls. simpl.
  destruct (linear_shape (head w) (norm_fwd (ln_f w) x1)) as [Hlen Hrows].
  split; [| exact Hrows].
  rewrite Hlen, norm_shape, Hls. apply embedding_shape.
Qed.

Lemma forward_single (w : Params) (train : bool) (r : Rng) (s : list token) :
  exists rows,
    fst (GazelleModel_forward w train r [s]) = [rows] /\
    length rows = length s /\
    Forall (fun row => length row = out_features (head w)) rows.
Proof.
  destruct (forward_shape w train r [s]) as [Hlen Hrows].
  destruct (fst (GazelleModel_forward w train r [s])) as [| rows [| more rest]];
    try discriminate.
  exists rows. simpl in Hlen. injection Hlen as Hlen.
  repeat split; [exact Hlen |].
  inversion Hrows; assumption.
Qed.

End ForwardFacts.

(** ** One step of [generate] *)

Section StepFacts.
Context `{TL : TorchLib} `{TK : Tokenizer}.

Lemma argmax_rows_singletons (t : list (list Logit)) (next_id : Ids) :
  argmax_rows t = Ok next_id ->
  length next_id = length t /\ Forall (fun x => exists i, x = [i]) next_id.
Proof.
  unfold argmax_rows. revert next_id.
  induction t as [| row t IH]; intros next_id Hrun; simpl in Hrun.
  - injection Hrun as <-. split; [reflexivity | constructor].
  - destruct (argmax row) as [i |]; [| discriminate].
    destruct (traverse _ t) as [ys | e]; [| discriminate].
    injection Hrun as <-. destruct (IH ys eq_refl) as [Hlen Hall].
    split; [simpl; congruence |].
    constructor; [exists i; reflexivity | exact Hall].
Qed.

(** On a one-row tensor a successful step appends one id to the row. *)
Lemma pick_next_single_inv (logits : LogitTensor) (s : list token) (ids' next_id : Ids) :
  pick_next logits [s] = Ok (ids', next_id) ->
  exists t, next_id = [[t]] /\ ids' = [s ++ [t]].
Proof.
  unfold pick_next.
  destruct (select_last logits) as [last_logits | e]; [| discriminate].
  destruct (argmax_rows last_logits) as [nx | e] eqn:Harg; [| discriminate].
  destruct (argmax_rows_singletons _ _ Harg) as [_ Hall].
  unfold cat_last. destruct nx as [| x [| y nx]]; simpl; try discriminate.
  inversion Hall as [| ? ? [t ->] _]; subst.
  intro Hok. injection Hok as <- <-.
  exists t. split; reflexivity.
Qed.

(** With logits for one row, a last position and a non-empty vocabulary
    the step succeeds and appends the argmax of the last position. *)
Lemma pick_next_single (rows : list (list Logit)) (row : list Logit)
      (s : list token) (t : nat) :
  last_error rows = Some row ->
  argmax row = Some t ->
  pick_next [rows] [s] = Ok ([s ++ [t]], [[t]]).
Proof.
  intros Hlast Harg. unfold pick_next, select_last, argmax_rows. simpl.
  rewrite Hlast. simpl. rewrite Harg. reflexivity.
Qed.

(** [gen_step] is a forward pass on [ids], recorded, followed by
    [pick_next] on its logits. *)
Lemma gen_step_run (ids : Ids) (s : Session) :
  gen_step ids s =
  (pick_next (fst (GazelleModel_forward (weights (md s)) (training (md s)) (rng (rt s)) ids)) ids,
   push_forward ids
     (set_rng (snd (GazelleModel_forward (weights (md s)) (training (md s)) (rng (rt s)) ids)) s)).
Proof.
  unfold gen_step, bind, model, lift, ret, pick_next.
  destruct (GazelleModel_forward _ _ _ ids) as [logits r]. simpl.
  destruct (select_last logits) as [last_logits | e]; [| reflexivity].
  destruct (argmax_rows last_logits) as [next_id | e]; [| reflexivity].
  destruct (cat_last ids next_id) as [ids' | e]; reflexivity.
Qed.

(** In evaluation mode the step is [greedy_next] on the weights. *)
Lemma gen_step_eval (ids : Ids) (s : Session) :
  training (md s) = false ->
  gen_step ids s = (greedy_next (weights (md s)) ids, push_forward ids s).
Proof.
  intro Heval. rewrite gen_step_run, Heval, forward_eval. simpl.
  unfold greedy_next. destruct s as [[g ge out] m]. reflexivity.
Qed.

End StepFacts.

(** ** The loop of [generate] *)

Section LoopFacts.
Context `{TL : TorchLib} `{TK : Tokenizer}.

Lemma same_model_state_refl (s : Session) : same_model_state s s.
Proof. repeat split. Qed.

Lemma same_model_state_trans (s1 s2 s3 : Session) :
  same_model_state s1 s2 -> same_model_state s2 s3 -> same_model_state s1 s3.
Proof.
  unfold same_model_state. intros (A1 & A2 & A3 & A4 & A5 & A6) (B1 & B2 & B3 & B4 & B5 & B6).
  repeat split; congruence.
Qed.

Lemma gen_step_frame (ids : Ids) (s : Session) :
  same_model_state s (snd (gen_step ids s)).
Proof. rewrite gen_step_run. repeat split. Qed.

Lemma gen_loop_frame (n : nat) (ids : Ids) (s : Session) :
  same_model_state s (snd (gen_loop n ids s)).
Proof.
  revert ids s. induction n as [| n IH]; intros ids s; [apply same_model_state_refl |].
  simpl. unfold bind at 1.
  pose proof (gen_step_frame ids s) as Hstep.
  destruct (gen_step ids s) as [[p | e] s1]; simpl in Hstep; [| exact Hstep].
  unfold bind, lift. destruct (item (snd p)) as [t | e]; [| exact Hstep].
  destruct (is_eos t); [exact Hstep |].
  exact (same_model_state_trans _ _ _ Hstep (IH (fst p) s1)).
Qed.

(** In evaluation mode the outcome of the loop is a function of the
    weights and of the ids it starts from. *)
Lemma gen_loop_weights_only (n : nat) (ids : Ids) (s1 s2 : Session) :
  training (md s1) = false ->
  training (md s2) = false ->
  weights (md s1) = weights (md s2) ->
  fst (gen_loop n ids s1) = fst (gen_loop n ids s2).
Proof.
  revert ids s1 s2. induction n as [| n IH]; intros ids s1 s2 He1 He2 Hw; [reflexivity |].
  simpl. unfold bind at 1 3.
  rewrite (gen_step_eval ids s1 He1), (gen_step_eval ids s2 He2), Hw.
  destruct (greedy_next (weights (md s2)) ids) as [p | e]; [| reflexivity].
  unfold bind, lift. destruct (item (snd p)) as [t | e]; [| reflexivity].
  destruct (is_eos t); [reflexivity |].
  apply IH; assumption.
Qed.

(** [generate_ids] is the loop, run in evaluation mode with gradient
    recording off, the previous gradient mode being put back after. *)
Lemma generate_ids_run (prompt : string) (n : nat) (s : Session) :
  generate_ids prompt n s =
  (fst (gen_loop n [tokenize prompt] (set_grad_enabled false (set_training false s))),
   set_grad_enabled (grad_enabled (rt s))
     (snd (gen_loop n [tokenize prompt] (set_grad_enabled false (set_training false s))))).
Proof.
  unfold generate_ids, bind, model_eval, modify, no_grad. simpl.
  destruct (gen_loop n [tokenize prompt] _) as [r s']. reflexivity.
Qed.

Lemma greedy_tokens_length (w : Params) (n : nat) (ids : Ids) (ts : list token) :
  greedy_tokens w n ids = Ok ts -> length ts = n.
Proof.
  revert ids ts. induction n as [| n IH]; intros ids ts Hrun; simpl in Hrun.
  - injection Hrun as <-. reflexivity.
  - destruct (greedy_next w ids) as [[ids' next_id] | e]; [| discriminate].
    destruct (item next_id) as [t | e]; [| discriminate].
    destruct (greedy_tokens w n ids') as [ts' | e] eqn:Hrest; [| discriminate].
    injection Hrun as <-. simpl. rewrite (IH _ _ Hrest). reflexivity.
Qed.

(** When none of the [n] ids that decoding emits is the end-of-sequence
    id, the loop runs [n] forward passes and appends the [n] ids. *)
Lemma gen_loop_no_eos (n : nat) (row : list token) (s : Session) (ts : list token) :
  training (md s) = false ->
  greedy_tokens (weights (md s)) n [row] = Ok ts ->
  no_eos ts = true ->
  fst (gen_loop n [row] s) = Ok [row ++ ts] /\
  length (forwards (md (snd (gen_loop n [row] s)))) = n + length (forwards (md s)).
Proof.
  revert row s ts. induction n as [| n IH]; intros row s ts Heval Hrun Hno; simpl in Hrun.
  - injection Hrun as <-. simpl. rewrite app_nil_r. split; reflexivity.
  - simpl. unfold bind at 1 3. rewrite (gen_step_eval [row] s Heval).
    destruct (greedy_next (weights (md s)) [row]) as [[ids' next_id] | e] eqn:Hstep;
      [| discriminate].
    destruct (pick_next_single_inv _ _ _ _ Hstep) as (t & -> & ->).
    simpl in Hrun. unfold bind, lift. simpl.
    destruct (greedy_tokens (weights (md s)) n [row ++ [t]]) as [ts' | e] eqn:Hrest;
      [| discriminate].
    injection Hrun as <-. simpl in Hno. apply andb_prop in Hno as [Ht Hno].
    apply negb_true_iff in Ht. rewrite Ht.
    destruct (IH (row ++ [t]) (push_forward [row] s) ts' Heval Hrest Hno) as [Hout Hfw].
    rewrite Hout, Hfw. simpl. rewrite <- app_assoc. split; [reflexivity | lia].
Qed.

(** When the [k]-th id that decoding emits is the first end-of-sequence
    id and the loop is allowed at least [k] steps, the loop runs [k]
    forward passes and stops with that id appended. *)
Lemma gen_loop_first_eos (ts : list token) (t : token) (k n : nat)
      (row : list token) (s : Session) :
  training (md s) = false ->
  greedy_tokens (weights (md s)) k [row] = Ok (ts ++ [t]) ->
  no_eos ts = true ->
  is_eos t = true ->
  k <= n ->
  fst (gen_loop n [row] s) = Ok [row ++ ts ++ [t]] /\
  length (forwards (md (snd (gen_loop n [row] s)))) = k + length (forwards (md s)).
Proof.
  revert k n row s.
  induction ts as [| a ts IH]; intros k n row s Heval Hrun Hno Heos Hkn.
  - pose proof (greedy_tokens_length _ _ _ _ Hrun) as Hk. simpl in Hk. subst k.
    destruct n as [| n]; [lia |].
    simpl in Hrun. simpl. unfold bind at 1 3. rewrite (gen_step_eval [row] s Heval).
    destruct (greedy_next (weights (md s)) [row]) as [[ids' next_id] | e] eqn:Hstep;
      [| discriminate].
    destruct (pick_next_single_inv _ _ _ _ Hstep) as (t' & -> & ->).
    simpl in Hrun. injection Hrun as ->.
    unfold bind, lift. simpl. rewrite Heos. simpl. split; reflexivity.
  - pose proof (greedy_tokens_length _ _ _ _ Hrun) as Hk. simpl in Hk.
    destruct k as [| k]; [discriminate |].
    destruct n as [| n]; [lia |].
    simpl in Hrun. simpl. unfold bind at 1 3. rewrite (gen_step_eval [row] s Heval).
    destruct (greedy_next (weights (md s)) [row]) as [[ids' next_id] | e] eqn:Hstep;
      [| discriminate].
    destruct (pick_next_single_inv _ _ _ _ Hstep) as (t' & -> & ->).
    simpl in Hrun.
    destruct (greedy_tokens (weights (md s)) k [row ++ [t']]) as [ts' | e] eqn:Hrest;
      [| discriminate].
    injection Hrun as -> ->.
    simpl in Hno. apply andb_prop in Hno as [Ha Hno]. apply negb_true_iff in Ha.
    unfold bind, lift. simpl. rewrite Ha.
    destruct (IH k n (row ++ [a]) (push_forward [row] s) Heval Hrest Hno Heos) as [Hout Hfw];
      [lia |].
    rewrite Hout, Hfw. simpl. rewrite <- app_assoc. split; [reflexivity | lia].
Qed.

(** Decoding from a sequence with a last position, over a non-empty
    vocabulary, emits an id at every step. *)
Lemma greedy_tokens_total (w : Params) (n : nat) (row : list token) :
  row <> [] ->
  0 < out_features (head w) ->
  exists ts, greedy_tokens w n [row] = Ok ts.
Proof.
  intros Hrow Hvocab. revert row Hrow.
  induction n as [| n IH]; intros row Hrow; [exists []; reflexivity |].
  destruct (forward_single w false (manual_seed 0) row) as (logits & Hfw & Hlen & Hwidth).
  rewrite forward_eval in Hfw. simpl in Hfw.
  assert (Hne : logits <> []).
  { intros ->. destruct row; [congruence | discriminate]. }
  destruct (last_error_some logits Hne) as [last_logits Hlast].
  assert (Hne' : last_logits <> []).
  { intros ->. apply last_error_In in Hlast.
    rewrite Forall_forall in Hwidth. specialize (Hwidth _ Hlast). simpl in Hwidth. lia. }
  destruct (argmax_some last_logits Hne') as [t Ht].
  destruct (IH (row ++ [t])) as [ts Hts].
  { intro Happ. apply app_eq_nil in Happ as [_ Hbad]. discriminate. }
  exists (t :: ts). simpl. unfold greedy_next. rewrite Hfw.
  rewrite (pick_next_single logits last_logits row t Hlast Ht). simpl.
  rewrite Hts. reflexivity.
Qed.

End LoopFacts.

(** ** Claims about [generate] *)

Section GenerateClaims.
Context `{TL : TorchLib} `{TK : Tokenizer}.

(** C1. One generation step, on the sequence [row] the loop holds
    (with a last position, over a non-empty vocabulary): the model is
    run on the whole of [row] (the forward pass recorded is [[row]]),
    the logits [last_logits] of the last position are taken, the id [t]
    chosen is their argmax (no entry of [last_logits] exceeds entry [t],
    and [t] is the first such index: nothing is drawn at random), and
    the step returns [row] with [t] appended. *)
Theorem generation_step_appends_argmax (s : Session) (row : list token) :
  row <> [] ->
  0 < out_features (head (weights (md s))) ->
  exists (logits : list (list Logit)) (last_logits : list Logit) (t : token),
    fst (GazelleModel_forward (weights (md s)) (training (md s)) (rng (rt s)) [row])
    = [logits] /\
    last_error logits = Some last_logits /\
    is_argmax last_logits t /\
    fst (gen_step [row] s) = Ok ([row ++ [t]], [[t]]) /\
    forwards (md (snd (gen_step [row] s))) = [row] :: forwards (md s).
Proof.
  intros Hrow Hvocab.
  destruct (forward_single (weights (md s)) (training (md s)) (rng (rt s)) row)
    as (logits & Hfw & Hlen & Hwidth).
  assert (Hne : logits <> []).
  { intros ->. destruct row; [congruence | discriminate]. }
  destruct (last_error_some logits Hne) as [last_logits Hlast].
  assert (Hne' : last_logits <> []).
  { intros ->. apply last_error_In in Hlast.
    rewrite Forall_forall in Hwidth. specialize (Hwidth _ Hlast). simpl in Hwidth. lia. }
  destruct (argmax_some last_logits Hne') as [t Ht].
  exists logits, last_logits, t.
  rewrite gen_step_run, Hfw. simpl.
  repeat split; try assumption.
  - apply argmax_is_argmax. exact Ht.
  - apply pick_next_single with (row := last_logits); assumption.
Qed.

(** C2. When the [N] ids that decoding emits from the prompt, [ts], are
    all different from the end-of-sequence id, [generate] with
    [max_new_tokens = N] returns the prompt's ids followed by exactly
    those [N] ids, after exactly [N] forward passes.  (Decoding does
    emit [N] ids from every prompt of at least one id over a non-empty
    vocabulary: [greedy_tokens_total].) *)
Theorem generate_without_eos_makes_all_tokens
        (s : Session) (prompt : string) (N : nat) (ts : list token) :
  greedy_tokens (weights (md s)) N [tokenize prompt] = Ok ts ->
  no_eos ts = true ->
  fst (generate_ids prompt N s) = Ok [tokenize prompt ++ ts] /\
  length (tokenize prompt ++ ts) = length (tokenize prompt) + N /\
  length (forwards (md (snd (generate_ids prompt N s)))) = N + length (forwards (md s)).
Proof.
  intros Hrun Hno. rewrite generate_ids_run. simpl.
  destruct (gen_loop_no_eos N (tokenize prompt)
              (set_grad_enabled false (set_training false s)) ts eq_refl Hrun Hno)
    as [Hout Hfw].
  rewrite length_app, (greedy_tokens_length _ _ _ _ Hrun).
  repeat split; assumption.
Qed.

(** C3. Steps are counted from 1.  When the [k]-th id that decoding
    emits from the prompt is the end-of-sequence id, the ids before it
    are not, and [k < N], [generate] with [max_new_tokens = N] stops at
    step [k]: it has run [k] forward passes, and the sequence it returns
    is the prompt's ids followed by the [k] emitted ids, the
    end-of-sequence id included. *)
Theorem generate_stops_at_first_eos
        (s : Session) (prompt : string) (N k : nat) (ts : list token) (t : token) :
  k < N ->
  greedy_tokens (weights (md s)) k [tokenize prompt] = Ok (ts ++ [t]) ->
  no_eos ts = true ->
  is_eos t = true ->
  fst (generate_ids prompt N s) = Ok [tokenize prompt ++ ts ++ [t]] /\
  length (tokenize prompt ++ ts ++ [t]) = length (tokenize prompt) + k /\
  length (forwards (md (snd (generate_ids prompt N s)))) = k + length (forwards (md s)).
Proof.
  intros Hk Hrun Hno Heos. rewrite generate_ids_run. simpl.
  destruct (gen_loop_first_eos ts t k N (tokenize prompt)
              (set_grad_enabled false (set_training false s)) eq_refl Hrun Hno Heos)
    as [Hout Hfw]; [lia |].
  rewrite length_app, (greedy_tokens_length _ _ _ _ Hrun).
  repeat split; assumption.
Qed.

Lemma generate_run (prompt : string) (n : nat) (s : Session) :
  fst (generate prompt n s) =
  match fst (generate_ids prompt n s) with
  | Raise e => Raise e
  | Ok ids =>
      match first_row ids with
      | Raise e => Raise e
      | Ok row => Ok (decode row)
      end
  end.
Proof.
  unfold generate, bind, lift, ret.
  destruct (generate_ids prompt n s) as [[ids | e] s']; [| reflexivity].
  simpl. destruct (first_row ids); reflexivity.
Qed.

(** C5. Two runs of [generate] on the same prompt, from sessions that
    hold the same weights, return the same ids and the same text,
    whatever else differs between the sessions (the state of the random
    generator, the mode the model was left in, gradients, optimizer
    state, earlier output). *)
Theorem generate_two_runs_agree (s1 s2 : Session) (prompt : string) (N : nat) :
  weights (md s1) = weights (md s2) ->
  fst (generate_ids prompt N s1) = fst (generate_ids prompt N s2) /\
  fst (generate prompt N s1) = fst (generate prompt N s2).
Proof.
  intro Hw.
  assert (Hids : fst (generate_ids prompt N s1) = fst (generate_ids prompt N s2)).
  { rewrite !generate_ids_run. simpl.
    apply gen_loop_weights_only; [reflexivity | reflexivity | exact Hw]. }
  split; [exact Hids |].
  rewrite !generate_run, Hids. reflexivity.
Qed.

(** C9. A call of [generate] leaves the parameters as they were: the
    weights after the call are the weights before it, no optimizer
    update was applied, the optimizer state and the gradient fields are
    untouched, and the gradient mode in force before the call is back. *)
Theorem generate_leaves_parameters_unchanged (s : Session) (prompt : string) (N : nat) :
  weights (md (snd (generate prompt N s))) = weights (md s) /\
  updates (md (snd (generate prompt N s))) = updates (md s) /\
  opt (md (snd (generate prompt N s))) = opt (md s) /\
  grads (md (snd (generate prompt N s))) = grads (md s) /\
  grad_enabled (rt (snd (generate prompt N s))) = grad_enabled (rt s).
Proof.
  assert (Hsnd : snd (generate prompt N s) = snd (generate_ids prompt N s)).
  { unfold generate, bind, lift, ret.
    destruct (generate_ids prompt N s) as [[ids | e] s']; [| reflexivity].
    simpl. destruct (first_row ids); reflexivity. }
  rewrite Hsnd, generate_ids_run. simpl.
  destruct (gen_loop_frame N [tokenize prompt]
              (set_grad_enabled false (set_training false s)))
    as (Hw & Hg & Ho & Hu & _ & _).
  repeat split; assumption.
Qed.

(** The one field of the model a call of [generate] sets is its mode. *)
Lemma generate_leaves_eval_mode (s : Session) (prompt : string) (N : nat) :
  training (md (snd (generate_ids prompt N s))) = false.
Proof.
  rewrite generate_ids_run. simpl.
  destruct (gen_loop_frame N [tokenize prompt]
              (set_grad_enabled false (set_training false s)))
    as (_ & _ & _ & _ & Hmode & _).
  exact Hmode.
Qed.

End GenerateClaims.

(** ** What [generate] feeds to the model *)

Section FedFacts.
Context `{TL : TorchLib} `{TK : Tokenizer}.

Lemma fed_inputs_step (row gen : list token) (t : token) (m : nat) :
  fed_inputs row (t :: gen) (S m) = [row] :: fed_inputs (row ++ [t]) gen m.
Proof.
  unfold fed_inputs. simpl. rewrite app_nil_r. f_equal.
  rewrite <- seq_shift, map_map. apply map_ext.
  intro i. simpl. rewrite <- app_assoc. reflexivity.
Qed.

(** The loop runs at most [n] forward passes, each on the starting row
    followed by the ids generated so far, and what it returns is the
    starting row followed by all generated ids. *)
Lemma gen_loop_fed (n : nat) (row : list token) (s : Session) :
  exists (gen : list token) (m : nat),
    length gen <= m /\ m <= n /\
    forwards (md (snd (gen_loop n [row] s))) = rev (fed_inputs row gen m) ++ forwards (md s) /\
    (forall ids, fst (gen_loop n [row] s) = Ok ids -> ids = [row ++ gen]).
Proof.
  revert row s. induction n as [| n IH]; intros row s.
  - exists [], 0. simpl. repeat split; try lia.
    intros ids Hids. injection Hids as <-. rewrite app_nil_r. reflexivity.
  - simpl. unfold bind at 1 3. rewrite gen_step_run.
    set (fw := GazelleModel_forward (weights (md s)) (training (md s)) (rng (rt s)) [row]).
    destruct (pick_next (fst fw) [row]) as [[ids' next_id] | e] eqn:Hstep.
    + destruct (pick_next_single_inv _ _ _ _ Hstep) as (t & -> & ->).
      unfold bind, lift. simpl. destruct (is_eos t).
      * exists [t], 1. simpl. rewrite app_nil_r. repeat split; try lia.
        intros ids Hids. injection Hids as <-. reflexivity.
      * destruct (IH (row ++ [t]) (push_forward [row] (set_rng (snd fw) s)))
          as (gen & m & Hgen & Hm & Hfw & Hout).
        exists (t :: gen), (S m). simpl length.
        repeat split; try lia.
        -- rewrite Hfw, fed_inputs_step. simpl. rewrite <- app_assoc. reflexivity.
        -- intros ids Hids. rewrite (Hout ids Hids), <- app_assoc. reflexivity.
    + exists [], 1. simpl. rewrite app_nil_r. repeat split; try lia.
      intros ids Hids. discriminate.
Qed.

Lemma last_error_app {A} (l : list A) (x : A) : last_error (l ++ [x]) = Some x.
Proof.
  induction l as [| a l IH]; [reflexivity |].
  simpl. destruct (l ++ [x]) eqn:Happ; [| exact IH].
  destruct l; discriminate.
Qed.

Lemma fed_inputs_length (row gen : list token) (m : nat) :
  length (fed_inputs row gen m) = m.
Proof. unfold fed_inputs. rewrite length_map. apply length_seq. Qed.

(** The loop in evaluation mode is decoding up to the first
    end-of-sequence id or the [n]-th id, each pass being fed the
    starting row followed by the ids emitted before it. *)
Lemma gen_loop_decodes (n k : nat) (row : list token) (s : Session) (ts : list token) :
  training (md s) = false ->
  k <= n ->
  greedy_tokens (weights (md s)) k [row] = Ok ts ->
  no_eos (removelast ts) = true ->
  (k < n -> exists t, last_error ts = Some t /\ is_eos t = true) ->
  fst (gen_loop n [row] s) = Ok [row ++ ts] /\
  forwards (md (snd (gen_loop n [row] s))) = rev (fed_inputs row ts k) ++ forwards (md s).
Proof.
  intros Heval Hkn Hrun Hno Hstop.
  assert (Hcore : fst (gen_loop n [row] s) = Ok [row ++ ts] /\
                  length (forwards (md (snd (gen_loop n [row] s))))
                  = k + length (forwards (md s))).
  { destruct ts as [| a ts0].
    - pose proof (greedy_tokens_length _ _ _ _ Hrun) as Hk. simpl in Hk. subst k.
      destruct n as [| n].
      + simpl. rewrite app_nil_r. split; reflexivity.
      + destruct Hstop as (t & Hbad & _); [lia | discriminate].
    - destruct (@exists_last _ (a :: ts0)) as (ts' & t & Hts); [discriminate |].
      rewrite Hts in *. rewrite removelast_last in Hno.
      destruct (is_eos t) eqn:Heos.
      + exact (gen_loop_first_eos ts' t k n row s Heval Hrun Hno Heos Hkn).
      + assert (Hk : k = n).
        { destruct (Nat.eq_dec k n) as [Heq | Hneq]; [exact Heq |].
          destruct Hstop as (t0 & Hlast & Heos0); [lia |].
          rewrite last_error_app in Hlast. injection Hlast as <-. congruence. }
        subst k. apply gen_loop_no_eos; [exact Heval | exact Hrun |].
        unfold no_eos in *. rewrite forallb_app, Hno. simpl. rewrite Heos. reflexivity. }
  destruct Hcore as [Hout Hcount]. split; [exact Hout |].
  destruct (gen_loop_fed n row s) as (gen & m & _ & _ & Hfw & Hids).
  specialize (Hids _ Hout). injection Hids as Hgen.
  apply app_inv_head in Hgen. subst gen.
  rewrite Hfw in Hcount. rewrite length_app, length_rev, fed_inputs_length in Hcount.
  assert (m = k) by lia. subst m. exact Hfw.
Qed.

(** C10. [generate] is not bound by [ctx_len].  Let [ts] be the ids
    that decoding emits from the prompt up to the first end-of-sequence
    id or, without one, up to the [N]-th id ([k] ids in all).  Then
    [generate] feeds the model, pass after pass, the whole tokenized
    prompt followed by the ids emitted so far (0, 1, ..., [k - 1] of
    them), neither cut nor padded, and returns the prompt followed by
    all [k] ids: without an end-of-sequence id, [length prompt + N] ids.
    No configuration enters: this holds whatever these lengths are
    against [ctx_len].  The training-time [encode], by contrast, gives
    every text that has an id exactly [ctx_len] ids (for a positive
    [ctx_len]). *)
Theorem generate_not_bound_by_ctx_len
        (config : GazelleConfig) (s : Session) (prompt : string) (N k : nat)
        (ts : list token) :
  k <= N ->
  greedy_tokens (weights (md s)) k [tokenize prompt] = Ok ts ->
  no_eos (removelast ts) = true ->
  (k < N -> exists t, last_error ts = Some t /\ is_eos t = true) ->
  fst (generate_ids prompt N s) = Ok [tokenize prompt ++ ts] /\
  length (tokenize prompt ++ ts) = length (tokenize prompt) + k /\
  forwards (md (snd (generate_ids prompt N s)))
  = rev (fed_inputs (tokenize prompt) ts k) ++ forwards (md s) /\
  ((0 < ctx_len config)%Z ->
   forall text, tokenize text <> [] ->
                length (encode config text) = Z.to_nat (ctx_len config)).
Proof.
  intros Hk Hrun Hno Hstop. rewrite generate_ids_run. simpl.
  destruct (gen_loop_decodes N k (tokenize prompt)
              (set_grad_enabled false (set_training false s)) ts
              eq_refl Hk Hrun Hno Hstop) as [Hout Hfw].
  rewrite length_app, (greedy_tokens_length _ _ _ _ Hrun).
  repeat split; try assumption.
  intros Hctx text Htext. unfold encode. apply tokenize_fixed_length; assumption.
Qed.

End FedFacts.

(** ** The training loop *)

Section TrainingFacts.
Context `{TL : TorchLib} `{TK : Tokenizer}.

(** The loss of a batch is [ce_value] of its [loss_terms]: the shapes
    of the logits and of the targets always agree. *)
Lemma cross_entropy_terms (w : Params) (train : bool) (r : Rng) (batch : Ids) :
  cross_entropy (view_flat (fst (GazelleModel_forward w train r batch))) (view_flat batch)
  = Ok (ce_value (loss_terms (fst (GazelleModel_forward w train r batch)) batch)).
Proof.
  unfold cross_entropy, loss_terms, view_flat.
  destruct (forward_shape w train r batch) as [Hshape _].
  rewrite (length_concat_shape _ _ Hshape), Nat.eqb_refl. reflexivity.
Qed.

(** For a batch of one sequence, the term of position [i] pairs the
    logits of position [i] with the id at position [i]. *)
Lemma loss_terms_single (w : Params) (train : bool) (r : Rng) (row : list token) :
  exists logits,
    fst (GazelleModel_forward w train r [row]) = [logits] /\
    length logits = length row /\
    loss_terms [logits] [row] = combine logits row.
Proof.
  destruct (forward_single w train r row) as (logits & Hfw & Hlen & _).
  exists logits. repeat split; try assumption.
  unfold loss_terms, view_flat. simpl. rewrite !app_nil_r. reflexivity.
Qed.

(** One pass of the loop body on a tensor applies one optimizer
    update. *)
Lemma train_step_updates (i : nat) (x : Ids) (s : Session) :
  grad_enabled (rt s) = true ->
  exists s',
    train_step i (TensorBatch x) s = (Ok tt, s') /\
    updates (md s') = S (updates (md s)) /\
    grad_enabled (rt s') = true.
Proof.
  intro Hgrad. unfold train_step.
  generalize (Nat.eqb (i mod 5) 0). intro report.
  unfold bind at 1, lift. cbn [to_cuda].
  unfold bind at 1, get. unfold bind at 1, model.
  pose proof (cross_entropy_terms (weights (md s)) (training (md s)) (rng (rt s)) x)
    as Hloss.
  destruct (GazelleModel_forward (weights (md s)) (training (md s)) (rng (rt s)) x)
    as [logits r].
  simpl in Hloss. unfold bind at 1, lift. rewrite Hloss.
  unfold bind at 1, loss_backward. simpl. rewrite Hgrad.
  unfold bind at 1, optimizer_step. simpl.
  destruct (AdamW_step (opt (md s)) (weights (md s)) _) as [o w].
  unfold bind, optimizer_zero_grad, modify, print, ret. simpl.
  destruct report; eexists; (split; [reflexivity |]); simpl; split; auto.
Qed.

(** One pass of the loop body on a list of tensors raises at [.cuda()],
    before anything else has happened. *)
Lemma train_step_on_list (i : nat) (columns : list (list token)) (s : Session) :
  train_step i (ListBatch columns) s
  = (Raise (AttributeError "'list' object has no attribute 'cuda'"), s).
Proof. reflexivity. Qed.

Lemma movable_prefix_le (batches : list Collated) :
  movable_prefix batches <= length batches.
Proof.
  induction batches as [| [x | columns] rest IH]; simpl; lia.
Qed.

Lemma movable_prefix_tensors (batches : list Collated) :
  (forall b, In b batches -> exists x, b = TensorBatch x) ->
  movable_prefix batches = length batches.
Proof.
  induction batches as [| b rest IH]; intro Hall; [reflexivity |].
  destruct (Hall b (or_introl eq_refl)) as [x ->]. simpl. f_equal.
  apply IH. intros b' Hin. apply Hall. right. exact Hin.
Qed.

(** From index [i], the loop applies one update per batch, up to index
    [cap] and up to the first batch that is not a tensor; it returns
    when no such batch was met and raises at [.cuda()] otherwise. *)
Lemma train_loop_run (cap : nat) (batches : list Collated) (i : nat) (s : Session) :
  grad_enabled (rt s) = true ->
  updates (md (snd (train_loop cap i batches s)))
  = updates (md s) + movable_prefix (firstn (S cap - i) batches) /\
  fst (train_loop cap i batches s)
  = (if Nat.eqb (movable_prefix (firstn (S cap - i) batches))
                (length (firstn (S cap - i) batches))
     then Ok tt
     else Raise (AttributeError "'list' object has no attribute 'cuda'")).
Proof.
  revert i s. induction batches as [| batch rest IH]; intros i s Hgrad.
  - rewrite firstn_nil. simpl. split; [lia | reflexivity].
  - simpl train_loop. destruct (Nat.ltb_spec cap i) as [Hover | Hin].
    + replace (S cap - i) with 0 by lia. simpl. split; [lia | reflexivity].
    + replace (S cap - i) with (S (S cap - S i)) by lia. rewrite firstn_cons.
      destruct batch as [x | columns].
      * destruct (train_step_updates i x s Hgrad) as (s1 & Hstep & Hup1 & Hgrad1).
        destruct (IH (S i) s1 Hgrad1) as [Hup Hout].
        unfold bind. rewrite Hstep. cbn [movable_prefix length Nat.eqb].
        split; [rewrite Hup, Hup1; lia | exact Hout].
      * unfold bind. rewrite train_step_on_list. cbn [movable_prefix length Nat.eqb fst snd].
        split; [lia | reflexivity].
Qed.

(** On tensors the loop returns after [min n (cap + 1)] updates. *)
Lemma train_loop_on_tensors (cap : nat) (batches : list Collated) (s : Session) :
  grad_enabled (rt s) = true ->
  (forall b, In b batches -> exists x, b = TensorBatch x) ->
  fst (train_loop cap 0 batches s) = Ok tt /\
  updates (md (snd (train_loop cap 0 batches s)))
  = updates (md s) + Nat.min (length batches) (cap + 1).
Proof.
  intros Hgrad Hall. destruct (train_loop_run cap batches 0 s Hgrad) as [Hup Hout].
  assert (Hpre : movable_prefix (firstn (S cap - 0) batches)
                 = length (firstn (S cap - 0) batches)).
  { apply movable_prefix_tensors. intros b Hin. apply Hall.
    rewrite <- (firstn_skipn (S cap - 0) batches). apply in_or_app. left. exact Hin. }
  rewrite Hout, Hup, Hpre, Nat.eqb_refl, length_firstn. split; [reflexivity | lia].
Qed.


End TrainingFacts.

(** ** Model construction *)

Section ConstructionFacts.
Context `{TL : TorchLib}.

(** With at least one layer to build, a pair the encoder layer refuses
    makes the comprehension raise. *)
Lemma init_layers_fails (n : nat) (d_model nhead : Z) (r : Rng) :
  0 < n ->
  ~ (nhead | d_model)%Z ->
  is_ok (fst (init_layers n d_model nhead r)) = false.
Proof.
  intros Hn Hnd. destruct n as [| n]; [lia |].
  simpl. unfold bind at 1.
  pose proof (encoder_layer_needs_divisibility d_model nhead r Hnd) as Hfail.
  destruct (TransformerEncoderLayer_init d_model nhead r) as [[layer | e] r'];
    [discriminate | reflexivity].
Qed.

(** With no layer to build, the head count is never looked at. *)
Lemma init_without_layers (config : GazelleConfig) (nhead : Z) (r : Rng) :
  (n_layer config <= 0)%Z ->
  GazelleModel_init config r
  = GazelleModel_init (mkGazelleConfig (n_layer config) (n_embd config) nhead
                                       (vocab_size config) (ctx_len config)) r.
Proof.
  intro Hzero. unfold GazelleModel_init. simpl.
  replace (Z.to_nat (n_layer config)) with 0 by lia. reflexivity.
Qed.

(** C7, amended.  For a configuration with at least one layer, building
    the model with a head count that does not divide the embedding width
    raises: the notebook has no check of its own, the exception comes
    from the library's constructors (the encoder layer refuses the pair). *)
Theorem model_init_rejects_non_dividing_heads (config : GazelleConfig) (r : Rng) :
  (0 < n_layer config)%Z ->
  ~ (n_head config | n_embd config)%Z ->
  is_ok (fst (GazelleModel_init config r)) = false.
Proof.
  intros Hlayers Hnd. unfold GazelleModel_init. unfold bind at 1.
  destruct (Embedding_init (vocab_size config) (n_embd config) r) as [[emb | e] r1];
    [| reflexivity].
  unfold bind at 1.
  pose proof (init_layers_fails (Z.to_nat (n_layer config)) (n_embd config)
                                (n_head config) r1 ltac:(lia) Hnd) as Hfail.
  destruct (init_layers _ _ _ r1) as [[ls | e] r2]; [discriminate | reflexivity].
Qed.

End ConstructionFacts.

(** ** The targets of the training loss *)

Lemma map_snd_combine_same_length {A B} (xs : list A) (ys : list B) :
  length xs = length ys -> map snd (combine xs ys) = ys.
Proof.
  revert ys. induction xs as [| x xs IH]; intros [| y ys] Hlen; try discriminate;
    [reflexivity |].
  simpl. f_equal. apply IH. simpl in Hlen. lia.
Qed.

Section TargetFacts.
Context `{TL : TorchLib}.

(** C4, what the code does.  The batch is paired with itself, and
    without a shift: for a batch of one sequence the targets of the loss
    are the input ids themselves, position by position, so the logits of
    position [i] are scored against the id at position [i] and not
    against the id at position [i + 1]. *)
Theorem training_targets_are_the_inputs (w : Params) (train : bool) (r : Rng) (row : list token) :
  map snd (loss_terms (fst (GazelleModel_forward w train r [row])) [row]) = row.
Proof.
  destruct (loss_terms_single w train r row) as (logits & -> & Hlen & ->).
  apply map_snd_combine_same_length. exact Hlen.
Qed.

End TargetFacts.

(** ** The notebook run *)

Section NotebookFacts.
Context `{TL : TorchLib} `{TK : Tokenizer}.

Lemma guard_cell_without_cuda (w : World) :
  cuda_is_available w = false ->
  guard_cell w = (Raise (RuntimeError "GPU required"), w).
Proof.
  intro Hcuda. unfold guard_cell, bind, get. rewrite Hcuda. reflexivity.
Qed.

Lemma guard_cell_with_cuda (w : World) :
  cuda_is_available w = true ->
  guard_cell w =
  (Ok tt,
   set_numpy_seed 42
     (set_runtime (mkRuntime (manual_seed 42) (grad_enabled (runtime w))
                             (MsgGPU (device_name w) :: stdout (runtime w))) w)).
Proof.
  intro Hcuda. unfold guard_cell, bind, get. rewrite Hcuda. reflexivity.
Qed.

(** An exception in the first cell ends the run where it was raised. *)
Lemma run_cells_first_raises (c : M World unit) (rest : list (M World unit))
      (w w' : World) (e : Exn) :
  c w = (Raise e, w') ->
  run_cells (c :: rest) w = (Raise e, w').
Proof.
  intro Hc. simpl. unfold bind. rewrite Hc. reflexivity.
Qed.

(** C8. Without an accelerator the guard raises [RuntimeError('GPU
    required')] and the run of the notebook ends there, in the world it
    started from: no later cell has run, so no model was built ([globals]
    and the generator are as before), no dataset was loaded and no
    tokenizer was fetched ([dataset] and [events] are as before).  With
    an accelerator the guard raises nothing and leaves torch's generator
    and numpy's both seeded with 42. *)
Theorem environment_guard (w : World) :
  (cuda_is_available w = false ->
   guard_cell w = (Raise (RuntimeError "GPU required"), w) /\
   run_cells notebook w = (Raise (RuntimeError "GPU required"), w)) /\
  (cuda_is_available w = true ->
   fst (guard_cell w) = Ok tt /\
   rng (runtime (snd (guard_cell w))) = manual_seed 42 /\
   numpy_seed (snd (guard_cell w)) = Some 42%Z).
Proof.
  split; intro Hcuda.
  - pose proof (guard_cell_without_cuda w Hcuda) as Hguard.
    split; [exact Hguard |].
    apply run_cells_first_raises. exact Hguard.
  - rewrite (guard_cell_with_cuda w Hcuda). repeat split.
Qed.

End NotebookFacts.

(** ** The statements on the small instance *)

Module Examples.
Import Toy.

(** The notebook's own configuration satisfies the divisibility the
    encoder layers ask for. *)
Example default_config_heads_divide :
  (n_head default_config | n_embd default_config)%Z.
Proof. exists 64%Z. reflexivity. Qed.

(** C1 on the one-id sequence [97]. *)
Lemma generation_step_witness :
  exists (logits : list (list Z)) (last_logits : list Z) (t : token),
    fst (GazelleModel_forward (weights (md session)) (training (md session))
                              (rng (rt session)) [[97]]) = [logits] /\
    last_error logits = Some last_logits /\
    is_argmax last_logits t /\
    fst (gen_step [[97]] session) = Ok ([[97] ++ [t]], [[t]]) /\
    forwards (md (snd (gen_step [[97]] session))) = [[97]] :: forwards (md session).
Proof.
  apply (generation_step_appends_argmax session [97]).
  - discriminate.
  - vm_compute. lia.
Defined.

(** The step of the witness, run in the training mode [session] is in,
    appends id 3; in evaluation mode the same step appends id 2. *)
Example generation_step_on_97 :
  fst (gen_step [[97]] session) = Ok ([[97; 3]], [[3]]) /\
  fst (gen_step [[97]] (set_training false session)) = Ok ([[97; 2]], [[2]]).
Proof. split; reflexivity. Qed.

(** C2 on the prompt "c" with three new tokens: ids 0, 1, 2 are emitted,
    none is the end-of-sequence id 3. *)
Lemma generate_without_eos_witness :
  fst (generate_ids "c" 3 session) = Ok [tokenize "c" ++ [0; 1; 2]] /\
  length (tokenize "c" ++ [0; 1; 2]) = length (tokenize "c") + 3 /\
  length (forwards (md (snd (generate_ids "c" 3 session)))) = 3 + length (forwards (md session)).
Proof.
  apply (generate_without_eos_makes_all_tokens session "c" 3 [0; 1; 2]); reflexivity.
Defined.

(** C3 on the prompt "c" with at most ten new tokens: the fourth id
    emitted is the end-of-sequence id 3. *)
Lemma generate_stops_witness :
  fst (generate_ids "c" 10 session) = Ok [tokenize "c" ++ [0; 1; 2] ++ [3]] /\
  length (tokenize "c" ++ [0; 1; 2] ++ [3]) = length (tokenize "c") + 4 /\
  length (forwards (md (snd (generate_ids "c" 10 session)))) = 4 + length (forwards (md session)).
Proof.
  apply (generate_stops_at_first_eos session "c" 10 4 [0; 1; 2] 3);
    [lia | reflexivity | reflexivity | reflexivity].
Defined.

(** C5 on two sessions that share only their weights. *)
Lemma generate_two_runs_witness :
  fst (generate_ids "c" 10 session) = fst (generate_ids "c" 10 other_session) /\
  fst (generate "c" 10 session) = fst (generate "c" 10 other_session).
Proof.
  apply (generate_two_runs_agree session other_session "c" 10). reflexivity.
Defined.

(** C10 on the prompt "c" with at most ten new tokens and a context of
    three ids: the four ids up to the end-of-sequence id are appended,
    five ids in all, each pass being fed one id more. *)
Lemma generate_not_bound_witness :
  fst (generate_ids "c" 10 session) = Ok [tokenize "c" ++ [0; 1; 2; 3]] /\
  length (tokenize "c" ++ [0; 1; 2; 3]) = length (tokenize "c") + 4 /\
  forwards (md (snd (generate_ids "c" 10 session)))
  = rev (fed_inputs (tokenize "c") [0; 1; 2; 3] 4) ++ forwards (md session) /\
  ((0 < ctx_len small_config)%Z ->
   forall text, tokenize text <> [] ->
                length (encode small_config text) = Z.to_nat (ctx_len small_config)).
Proof.
  apply (generate_not_bound_by_ctx_len small_config session "c" 10 4 [0; 1; 2; 3]).
  - lia.
  - reflexivity.
  - reflexivity.
  - intros _. exists 3. split; reflexivity.
Defined.

(** In training mode the logits depend on the state of the generator:
    the two sessions of the witness disagree on a bare forward pass. *)
Example training_mode_forward_depends_on_rng :
  fst (GazelleModel_forward params true 0 [[97]]) <> fst (GazelleModel_forward params true 9 [[97]]) /\
  fst (GazelleModel_forward params false 0 [[97]]) = fst (GazelleModel_forward params false 9 [[97]]).
Proof. split; [discriminate | reflexivity]. Qed.

(** Without an end-of-sequence id in the tokenizer the loop always runs
    its [max_new_tokens] steps. *)
Example generate_without_eos_id :
  fst (@generate_ids torch tokenizer_no_eos "a" 5 session) = Ok [[97; 2; 3; 0; 1; 2]].
Proof. reflexivity. Qed.

(** [generate] on a prompt longer than the context of [small_config]:
    the three ids of the prompt are fed whole, where [encode] keeps two
    ids of a three-id text for a context of two. *)
Example generate_feeds_more_than_ctx_len :
  encode (mkGazelleConfig 1 4 2 4 2) "abc" = [97; 98] /\
  forwards (md (snd (generate_ids "abc" 2 session))) = [[[97; 98; 99; 0]]; [[97; 98; 99]]].
Proof. split; reflexivity. Qed.

(** An empty prompt has no last position: the first step raises. *)
Example generate_on_empty_prompt :
  fst (generate_ids "" 5 session)
  = Raise (IndexError "index -1 is out of bounds for dimension 1 with size 0").
Proof. reflexivity. Qed.

(** C4 at the batch [[5; 7; 9]]: the targets of the loss are 5, 7, 9, so
    the logits of position 0 are scored against the id at position 0
    (5), not against the id at position 1 (7). *)
Lemma training_targets_at_5_7_9 :
  map snd (loss_terms (fst (GazelleModel_forward params true 0 [[5; 7; 9]])) [[5; 7; 9]])
  = [5; 7; 9] /\
  nth_error [5; 7; 9] 0 = Some 5 /\
  nth_error [5; 7; 9] (0 + 1) = Some 7.
Proof. repeat split. Qed.



(** The run of the witness, and the two ways the loop returns on
    tensors: three batches get three updates, twenty get eleven. *)
Example train_loop_runs :
  (fst (train_loop demo_cap 0 mixed_batches session)
   = Raise (AttributeError "'list' object has no attribute 'cuda'") /\
   updates (md (snd (train_loop demo_cap 0 mixed_batches session))) = 2) /\
  (fst (train_loop demo_cap 0 (repeat (TensorBatch [[1; 2]]) 3) session) = Ok tt /\
   updates (md (snd (train_loop demo_cap 0 (repeat (TensorBatch [[1; 2]]) 3) session))) = 3) /\
  (fst (train_loop demo_cap 0 (repeat (TensorBatch [[1; 2]]) 20) session) = Ok tt /\
   updates (md (snd (train_loop demo_cap 0 (repeat (TensorBatch [[1; 2]]) 20) session))) = 11).
Proof. repeat split. Qed.

(** C7, as stated, fails: with no layer, a model with 3 heads over an
    embedding of width 10 is built without complaint. *)
Lemma model_init_counterexample :
  is_ok (fst (@GazelleModel_init torch (mkGazelleConfig 0 10 3 4 8) 0)) = true /\
  ~ (3 | 10)%Z.
Proof.
  split; [reflexivity |].
  intros [q Hq]. lia.
Qed.

(** C7, amended, on one layer, 3 heads and width 10. *)
Lemma model_init_rejects_witness :
  is_ok (fst (@GazelleModel_init torch (mkGazelleConfig 1 10 3 4 8) 0)) = false.
Proof.
  apply (@model_init_rejects_non_dividing_heads torch (mkGazelleConfig 1 10 3 4 8) 0).
  - simpl. lia.
  - simpl. intros [q Hq]. lia.
Defined.

(** C8 on a machine without an accelerator and on one with. *)
Lemma environment_guard_witness :
  (guard_cell (world false) = (Raise (RuntimeError "GPU required"), world false) /\
   run_cells notebook (world false) = (Raise (RuntimeError "GPU required"), world false)) /\
  (fst (guard_cell (world true)) = Ok tt /\
   rng (runtime (snd (guard_cell (world true)))) = manual_seed 42 /\
   numpy_seed (snd (guard_cell (world true))) = Some 42%Z).
Proof.
  split.
  - apply (environment_guard (world false)). reflexivity.
  - apply (environment_guard (world true)). reflexivity.
Defined.

(** With an accelerator the cells after the guard do run: the install
    and the dataset download are issued and the dataset is bound. *)
Example notebook_proceeds_with_cuda :
  events (snd (run_cells [guard_cell; install_cell; dataset_cell] (world true)))
  = [EvLoadDataset "cognitivecomputations/dolphin-distill" "train";
     EvShell "pip install -q transformers datasets einops"] /\
  dataset (snd (run_cells [guard_cell; install_cell; dataset_cell] (world true)))
  = Some ["ab"; "c"; "def"]%string.
Proof. split; reflexivity. Qed.

End Examples.

(** * Further properties of the notebook *)

(** ** The greedy choice as a function *)

Section ArgmaxMore.
Context `{TL : TorchLib}.

(** X8. [argmax] returns an index exactly when that index is the greedy
    choice (first position of a greatest entry), and returns nothing
    exactly on an empty row. *)
Theorem argmax_characterised (row : list Logit) (i : nat) :
  (argmax row = Some i <-> is_argmax row i) /\
  (argmax row = None <-> row = []).
Proof.
  split; split.
  - apply argmax_is_argmax.
  - intro Hi. destruct (argmax row) as [j |] eqn:Hj.
    + f_equal. apply (is_argmax_unique row j i); [apply argmax_is_argmax; exact Hj | exact Hi].
    + destruct row; [| discriminate].
      destruct Hi as (v & Hv & _). destruct i; discriminate.
  - destruct row; [reflexivity | discriminate].
  - intros ->. reflexivity.
Qed.

End ArgmaxMore.

(** ** The forward pass on a batch *)

Section ForwardMore.
Context `{TL : TorchLib}.

(** X7. The output contract of [GazelleModel.forward], for any number of
    layers and in either mode: one block of logits per sequence of the
    batch, one row per position, [out_features] entries per row. *)
Theorem forward_logits_follow_input (w : Params) (train : bool) (r : Rng) (x : Ids) :
  Forall2 (fun logits row =>
             length logits = length row /\
             Forall (fun entry => length entry = out_features (head w)) logits)
          (fst (GazelleModel_forward w train r x)) x.
Proof.
  destruct (forward_shape w train r x) as [Hlen Hwidth].
  revert Hlen Hwidth. generalize (fst (GazelleModel_forward w train r x)) as out.
  induction x as [| row x IH]; intros [| logits out] Hlen Hwidth; try discriminate.
  - constructor.
  - simpl in Hlen. injection Hlen as Hhd Htl.
    inversion Hwidth as [| ? ? Hw1 Hw2]; subst.
    constructor; [split; assumption | apply IH; assumption].
Qed.

End ForwardMore.

(** ** [generate] on well-formed input *)

Section GenerateMore.
Context `{TL : TorchLib} `{TK : Tokenizer}.

(** On a sequence with a last position, over a non-empty vocabulary,
    one step in evaluation mode appends an id of the vocabulary. *)
Lemma greedy_next_appends (w : Params) (row : list token) :
  row <> [] ->
  0 < out_features (head w) ->
  exists t, greedy_next w [row] = Ok ([row ++ [t]], [[t]]) /\ t < out_features (head w).
Proof.
  intros Hrow Hvocab.
  destruct (forward_single w false (manual_seed 0) row) as (logits & Hfw & Hlen & Hwidth).
  rewrite forward_eval in Hfw. simpl in Hfw.
  assert (Hne : logits <> []).
  { intros ->. destruct row; [congruence | discriminate]. }
  destruct (last_error_some logits Hne) as [last_logits Hlast].
  assert (Hw : length last_logits = out_features (head w)).
  { rewrite Forall_forall in Hwidth. apply Hwidth. apply last_error_In. exact Hlast. }
  assert (Hne' : last_logits <> []) by (intros ->; simpl in Hw; lia).
  destruct (argmax_some last_logits Hne') as [t Ht].
  exists t. split.
  - unfold greedy_next. rewrite Hfw. apply pick_next_single with (row := last_logits); assumption.
  - rewrite <- Hw. apply is_argmax_in_range. apply argmax_is_argmax. exact Ht.
Qed.

Lemma last_error_cons_nonempty {A} (a : A) (l : list A) :
  l <> [] -> last_error (a :: l) = last_error l.
Proof. destruct l; [congruence | reflexivity]. Qed.

(** The loop in evaluation mode, from a sequence with a last position
    and over a non-empty vocabulary: it returns, with the generated ids
    [gen] appended; [gen] has at most [n] ids, at least one when
    [n > 0], all in the vocabulary; only the last id of [gen] can be the
    end-of-sequence id, and it is whenever fewer than [n] ids were
    generated; there was one forward pass per generated id. *)
Lemma gen_loop_spec (n : nat) (row : list token) (s : Session) :
  training (md s) = false ->
  row <> [] ->
  0 < out_features (head (weights (md s))) ->
  exists gen,
    fst (gen_loop n [row] s) = Ok [row ++ gen] /\
    length gen <= n /\
    (0 < n -> gen <> []) /\
    Forall (fun t => t < out_features (head (weights (md s)))) gen /\
    no_eos (removelast gen) = true /\
    (length gen < n -> exists t, last_error gen = Some t /\ is_eos t = true) /\
    length (forwards (md (snd (gen_loop n [row] s)))) = length gen + length (forwards (md s)).
Proof.
  revert row s. induction n as [| n IH]; intros row s Heval Hrow Hvocab.
  - exists []. simpl. rewrite app_nil_r. repeat split; try lia; try constructor.
  - destruct (greedy_next_appends (weights (md s)) row Hrow Hvocab) as (t & Hstep & Ht).
    simpl gen_loop. unfold bind at 1 3. rewrite (gen_step_eval [row] s Heval), Hstep.
    unfold bind, lift. simpl item. cbv iota beta. cbn [fst snd].
    destruct (is_eos t) eqn:Heos.
    + exists [t]. simpl. repeat split; try lia.
      * discriminate.
      * constructor; [exact Ht | constructor].
      * intros _. exists t. split; [reflexivity | exact Heos].
    + destruct (IH (row ++ [t]) (push_forward [row] s) Heval) as
        (gen & Hout & Hlen & Hpos & Hin & Hno & Hlast & Hfw); [| exact Hvocab |].
      { intro Happ. apply app_eq_nil in Happ as [_ Hbad]. discriminate. }
      exists (t :: gen). rewrite Hout, Hfw, <- app_assoc. simpl.
      repeat split; try lia.
      * discriminate.
      * constructor; assumption.
      * destruct gen as [| g gen]; [reflexivity |].
        change (no_eos (t :: removelast (g :: gen)) = true).
        simpl. rewrite Heos. simpl. exact Hno.
      * intro Hshort. destruct Hlast as (t' & Hlast & Heos'); [lia |].
        exists t'. split; [| exact Heos'].
        destruct gen as [| g gen]; [discriminate | exact Hlast].
Qed.

(** What [generate_ids] returns is what the loop returns from the
    tokenized prompt in evaluation mode. *)
Lemma generate_ids_spec (s : Session) (prompt : string) (N : nat) :
  tokenize prompt <> [] ->
  0 < out_features (head (weights (md s))) ->
  exists gen,
    fst (generate_ids prompt N s) = Ok [tokenize prompt ++ gen] /\
    length gen <= N /\
    (0 < N -> gen <> []) /\
    Forall (fun t => t < out_features (head (weights (md s)))) gen /\
    no_eos (removelast gen) = true /\
    (length gen < N -> exists t, last_error gen = Some t /\ is_eos t = true) /\
    length (forwards (md (snd (generate_ids prompt N s)))) = length gen + length (forwards (md s)).
Proof.
  intros Hprompt Hvocab. rewrite generate_ids_run. simpl.
  exact (gen_loop_spec N (tokenize prompt) (set_grad_enabled false (set_training false s))
                       eq_refl Hprompt Hvocab).
Qed.

End GenerateMore.

Section GenerateEdges.
Context `{TL : TorchLib} `{TK : Tokenizer}.

Lemma generate_state (prompt : string) (n : nat) (s : Session) :
  snd (generate prompt n s) = snd (generate_ids prompt n s).
Proof.
  unfold generate, bind, lift, ret.
  destruct (generate_ids prompt n s) as [[ids | e] s']; [| reflexivity].
  simpl. destruct (first_row ids); reflexivity.
Qed.

(** X2. Every id [generate] appends is an index of the vocabulary the
    output layer was built for. *)
Theorem generated_ids_in_vocabulary (s : Session) (prompt : string) (N : nat) :
  tokenize prompt <> [] ->
  0 < out_features (head (weights (md s))) ->
  exists gen,
    fst (generate_ids prompt N s) = Ok [tokenize prompt ++ gen] /\
    Forall (fun t => t < out_features (head (weights (md s)))) gen.
Proof.
  intros Hprompt Hvocab.
  destruct (generate_ids_spec s prompt N Hprompt Hvocab)
    as (gen & Hout & _ & _ & Hin & _).
  exists gen. split; assumption.
Qed.

(** X3. In the sequence [generate] returns, the end-of-sequence id can
    only be the last generated id, and when fewer than
    [max_new_tokens] ids were generated the last one is the
    end-of-sequence id: the loop stops early for no other reason. *)
Theorem eos_only_ends_generation (s : Session) (prompt : string) (N : nat) :
  tokenize prompt <> [] ->
  0 < out_features (head (weights (md s))) ->
  exists gen,
    fst (generate_ids prompt N s) = Ok [tokenize prompt ++ gen] /\
    no_eos (removelast gen) = true /\
    (length gen < N -> exists t, last_error gen = Some t /\ is_eos t = true).
Proof.
  intros Hprompt Hvocab.
  destruct (generate_ids_spec s prompt N Hprompt Hvocab)
    as (gen & Hout & _ & _ & _ & Hno & Hlast & _).
  exists gen. repeat split; assumption.
Qed.

(** X4. With a tokenizer that has no end-of-sequence id
    ([eos_token_id] is [None]) the test of the loop never succeeds:
    [generate] appends exactly [max_new_tokens] ids. *)
Theorem generate_without_eos_id_runs_all_steps (s : Session) (prompt : string) (N : nat) :
  eos_token_id = None ->
  tokenize prompt <> [] ->
  0 < out_features (head (weights (md s))) ->
  exists gen,
    fst (generate_ids prompt N s) = Ok [tokenize prompt ++ gen] /\
    length gen = N.
Proof.
  intros Hnone Hprompt Hvocab.
  destruct (generate_ids_spec s prompt N Hprompt Hvocab)
    as (gen & Hout & Hlen & _ & _ & _ & Hlast & _).
  exists gen. split; [exact Hout |].
  destruct (Nat.eq_dec (length gen) N) as [Heq | Hneq]; [exact Heq |].
  destruct Hlast as (t & _ & Heos); [lia |].
  unfold is_eos in Heos. rewrite Hnone in Heos. discriminate.
Qed.

(** From the empty sequence the first step of the loop raises, after
    its forward pass. *)
Lemma gen_loop_on_empty_row (n : nat) (s : Session) :
  fst (gen_loop (S n) [[]] s)
  = Raise (IndexError "index -1 is out of bounds for dimension 1 with size 0") /\
  forwards (md (snd (gen_loop (S n) [[]] s))) = [[]] :: forwards (md s).
Proof.
  simpl gen_loop. unfold bind at 1 3. rewrite gen_step_run.
  destruct (forward_single (weights (md s)) (training (md s)) (rng (rt s)) [])
    as (logits & Hfw & Hlen & _).
  destruct logits; [| discriminate].
  rewrite Hfw. simpl. split; reflexivity.
Qed.

(** X5. On a prompt the tokenizer maps to no id, with
    [max_new_tokens > 0], [generate] raises the [IndexError] of
    [logits[:, -1]]: the model has been run once, on the empty
    sequence, and nothing was generated. *)
Theorem generate_on_empty_prompt_raises (s : Session) (prompt : string) (N : nat) :
  tokenize prompt = [] ->
  0 < N ->
  fst (generate prompt N s)
  = Raise (IndexError "index -1 is out of bounds for dimension 1 with size 0") /\
  forwards (md (snd (generate prompt N s))) = [[]] :: forwards (md s).
Proof.
  intros Hempty HN. destruct N as [| N]; [lia |].
  rewrite generate_run, generate_state, generate_ids_run, Hempty. cbn [fst snd].
  destruct (gen_loop_on_empty_row N (set_grad_enabled false (set_training false s)))
    as [Hout Hfw].
  rewrite Hout. split; [reflexivity |].
  simpl. simpl in Hfw. exact Hfw.
Qed.

(** X6. With [max_new_tokens = 0] the model is not run at all:
    [generate] returns the decoding of the prompt's own ids, for any
    prompt, the empty one included. *)
Theorem generate_zero_tokens (s : Session) (prompt : string) :
  fst (generate prompt 0 s) = Ok (decode (tokenize prompt)) /\
  forwards (md (snd (generate prompt 0 s))) = forwards (md s).
Proof.
  rewrite generate_run, generate_state, generate_ids_run. simpl. split; reflexivity.
Qed.

End GenerateEdges.

(** ** The training loop on the notebook's loader *)

Section TrainingMore.
Context `{TL : TorchLib} `{TK : Tokenizer}.


End TrainingMore.

(** ** Construction of the model *)

Section ConstructionMore.
Context `{TL : TorchLib}.

Lemma init_layers_length (n : nat) (d_model nhead : Z) (r r' : Rng) (ls : list LayerW) :
  init_layers n d_model nhead r = (Ok ls, r') -> length ls = n.
Proof.
  revert r r' ls. induction n as [| n IH]; intros r r' ls Hrun; simpl in Hrun.
  - unfold ret in Hrun. injection Hrun as <- _. reflexivity.
  - unfold bind at 1 in Hrun.
    destruct (TransformerEncoderLayer_init d_model nhead r) as [[layer | e] r1];
      [| discriminate].
    unfold bind at 1 in Hrun.
    destruct (init_layers n d_model nhead r1) as [[rest | e] r2] eqn:Hrest;
      [| discriminate].
    unfold ret in Hrun. injection Hrun as <- _.
    simpl. rewrite (IH _ _ _ Hrest). reflexivity.
Qed.

(** X14. A model that [GazelleModel.__init__] has built holds exactly
    [n_layer] encoder layers, none when [n_layer] is zero or
    negative. *)
Theorem model_init_layer_count (config : GazelleConfig) (r : Rng) (m : Params) :
  fst (GazelleModel_init config r) = Ok m ->
  length (layers m) = Z.to_nat (n_layer config).
Proof.
  unfold GazelleModel_init. unfold bind at 1.
  destruct (Embedding_init (vocab_size config) (n_embd config) r) as [[emb | e] r1];
    [| discriminate].
  unfold bind at 1.
  destruct (init_layers (Z.to_nat (n_layer config)) (n_embd config) (n_head config) r1)
    as [[ls | e] r2] eqn:Hls; [| discriminate].
  unfold bind at 1.
  destruct (LayerNorm_init (n_embd config) r2) as [[ln | e] r3]; [| discriminate].
  unfold bind at 1.
  destruct (Linear_init (n_embd config) (vocab_size config) r3) as [[hd | e] r4];
    [| discriminate].
  unfold ret. simpl. intro Hm. injection Hm as <-. simpl.
  exact (init_layers_length _ _ _ _ _ _ Hls).
Qed.

End ConstructionMore.

(** ** Runs of the whole notebook *)

Section NotebookMore.
Context `{TL : TorchLib} `{TK : Tokenizer}.

(** X15. With an accelerator but a dataset download that raises, the
    run ends in the dataset cell with that exception: the install and
    the download were issued, the generator is the seeded one, and
    neither [dataset] nor [model] was bound. *)
Theorem notebook_stops_when_download_fails (w : World) (e : Exn) :
  cuda_is_available w = true ->
  hub_dataset w = Raise e ->
  fst (run_cells notebook w) = Raise e /\
  events (snd (run_cells notebook w))
  = EvLoadDataset "cognitivecomputations/dolphin-distill" "train"
    :: EvShell "pip install -q transformers datasets einops" :: events w /\
  rng (runtime (snd (run_cells notebook w))) = manual_seed 42 /\
  dataset (snd (run_cells notebook w)) = dataset w /\
  globals (snd (run_cells notebook w)) = globals w.
Proof.
  intros Hcuda Hhub. unfold notebook, later_cells. simpl run_cells.
  unfold bind at 1 7 13 19 25. rewrite (guard_cell_with_cuda w Hcuda).
  unfold install_cell, dataset_cell, bind, modify, world_print, get, lift.
  cbn -[training_cell generate_cell]. rewrite Hhub. cbn. repeat split.
Qed.

(** X16. The run of the notebook does not depend on the state the
    random generators were in before the guard: two kernels that differ
    only in torch's generator and in numpy's seed end in the same
    world, with the same outcome. *)
Theorem notebook_run_ignores_initial_generators
        (w : World) (r : Rng) (numpy : option Z) :
  cuda_is_available w = true ->
  run_cells notebook
    (mkWorld (cuda_is_available w) (device_name w) (hub_dataset w)
             (mkRuntime r (grad_enabled (runtime w)) (stdout (runtime w)))
             numpy (events w) (dataset w) (globals w))
  = run_cells notebook w.
Proof.
  intro Hcuda. unfold notebook. simpl run_cells. unfold bind at 1 7.
  rewrite (guard_cell_with_cuda w Hcuda).
  rewrite guard_cell_with_cuda by exact Hcuda.
  reflexivity.
Qed.

End NotebookMore.

(** ** Successive calls of [generate] *)

Section GenerateCompose.
Context `{TL : TorchLib} `{TK : Tokenizer}.

Lemma generate_keeps_weights (prompt : string) (n : nat) (s : Session) :
  weights (md (snd (generate prompt n s))) = weights (md s).
Proof.
  rewrite generate_state, generate_ids_run. simpl.
  destruct (gen_loop_frame n [tokenize prompt]
              (set_grad_enabled false (set_training false s))) as (Hw & _).
  exact Hw.
Qed.

Lemma generate_reads_weights_only (prompt : string) (n : nat) (s1 s2 : Session) :
  weights (md s1) = weights (md s2) ->
  fst (generate prompt n s1) = fst (generate prompt n s2).
Proof.
  intro Hw. rewrite !generate_run, !generate_ids_run. cbn [fst].
  rewrite (gen_loop_weights_only n [tokenize prompt]
             (set_grad_enabled false (set_training false s1))
             (set_grad_enabled false (set_training false s2)) eq_refl eq_refl Hw).
  reflexivity.
Qed.

(** X18. Calls of [generate] do not interfere: whatever call was made
    before (any prompt, any number of tokens, returned or raised), a
    call gives the result it would have given without it.  In
    particular the same call made twice gives the same text twice. *)
Theorem generate_calls_do_not_interfere
        (s : Session) (earlier prompt : string) (M N : nat) :
  fst (generate prompt N (snd (generate earlier M s))) = fst (generate prompt N s).
Proof.
  apply generate_reads_weights_only. apply generate_keeps_weights.
Qed.

End GenerateCompose.

(** ** The further statements on the small instance *)

Module MoreExamples.
Import Toy.

(** A machine with an accelerator and no network. *)
Definition offline_world : World :=
  mkWorld true "Toy GPU" (Raise (RuntimeError "Connection error"))
          (mkRuntime 7 true []) None [] None None.

(** X2 on the prompt "c" with at most ten new tokens. *)
Lemma generated_ids_in_vocabulary_witness :
  exists gen,
    fst (generate_ids "c" 10 session) = Ok [tokenize "c" ++ gen] /\
    Forall (fun t => t < out_features (head (weights (md session)))) gen.
Proof.
  apply (generated_ids_in_vocabulary session "c" 10); [discriminate | vm_compute; lia].
Defined.

(** X3 on the same call. *)
Lemma eos_only_ends_generation_witness :
  exists gen,
    fst (generate_ids "c" 10 session) = Ok [tokenize "c" ++ gen] /\
    no_eos (removelast gen) = true /\
    (length gen < 10 -> exists t, last_error gen = Some t /\ is_eos t = true).
Proof.
  apply (eos_only_ends_generation session "c" 10); [discriminate | vm_compute; lia].
Defined.

(** X4 on the tokenizer without an end-of-sequence id. *)
Lemma generate_without_eos_id_witness :
  exists gen,
    fst (@generate_ids torch tokenizer_no_eos "a" 5 session)
    = Ok [@tokenize tokenizer_no_eos "a" ++ gen] /\
    length gen = 5.
Proof.
  apply (@generate_without_eos_id_runs_all_steps torch tokenizer_no_eos session "a" 5);
    [reflexivity | discriminate | vm_compute; lia].
Defined.

(** X5 on the empty prompt. *)
Lemma generate_on_empty_prompt_witness :
  fst (generate "" 5 session)
  = Raise (IndexError "index -1 is out of bounds for dimension 1 with size 0") /\
  forwards (md (snd (generate "" 5 session))) = [[]] :: forwards (md session).
Proof.
  apply (generate_on_empty_prompt_raises session "" 5); [reflexivity | lia].
Defined.


(** X14 on a configuration of two layers. *)
Lemma model_init_layer_count_witness :
  length (layers params) = Z.to_nat (n_layer (mkGazelleConfig 2 12 3 4 8)).
Proof.
  apply (@model_init_layer_count torch (mkGazelleConfig 2 12 3 4 8) 0 params).
  reflexivity.
Defined.

(** X15 on the machine without network. *)
Lemma notebook_stops_when_download_fails_witness :
  fst (run_cells notebook offline_world) = Raise (RuntimeError "Connection error") /\
  events (snd (run_cells notebook offline_world))
  = EvLoadDataset "cognitivecomputations/dolphin-distill" "train"
    :: EvShell "pip install -q transformers datasets einops" :: events offline_world /\
  rng (runtime (snd (run_cells notebook offline_world))) = manual_seed 42 /\
  dataset (snd (run_cells notebook offline_world)) = dataset offline_world /\
  globals (snd (run_cells notebook offline_world)) = globals offline_world.
Proof.
  apply (notebook_stops_when_download_fails offline_world (RuntimeError "Connection error"));
    reflexivity.
Defined.

(** X16 on two kernels that differ in their generators. *)
Lemma notebook_run_ignores_generators_witness :
  run_cells notebook
    (mkWorld (cuda_is_available offline_world) (device_name offline_world)
             (hub_dataset offline_world)
             (mkRuntime 1234 (grad_enabled (runtime offline_world))
                        (stdout (runtime offline_world)))
             (Some 5%Z) (events offline_world) (dataset offline_world)
             (globals offline_world))
  = run_cells notebook offline_world.
Proof.
  apply (notebook_run_ignores_initial_generators offline_world 1234 (Some 5%Z)).
  reflexivity.
Defined.

End MoreExamples.
